(** * Tickora habit ledger: a shallow embedding of [script.js]

    The development follows the layout of the script: the date helpers
    built on the JavaScript [Date] object, the [localStorage] blob with
    [getData]/[saveData], the streak bookkeeping, the activity operations
    and the success statistics.

    Conventions of the embedding.
    - A [Date] object is its time value: milliseconds since the epoch, a [Z].
      An operation reads the clock once: [now] is the instant of the call.
    - The host's time zone is a fixed offset [tz], in minutes east of UTC
      (zones that change their offset during the year are outside the model).
    - A date key, the text [d.toISOString().split('T')[0]], is represented by
      the UTC day number it denotes; [isoDateString] renders the text.
    - An object used as a dictionary is a finite map of its own properties.
    - JavaScript numbers that hold counts are integers; the percentages of
      the statistics are exact rationals. *)

From Stdlib Require Import ZArith QArith Qround Qabs Lia Lqa List Bool Ascii String.
From stdpp Require Import gmap strings list sorting.

#[local] Open Scope Z_scope.

(** ** The [Date] object *)

Module JSDate.

Definition msPerDay : Z := 86400000.
Definition msPerMinute : Z := 60000.

(** [Day(t)] and [TimeWithinDay(t)] of ECMAScript; [/] on [Z] rounds down. *)
Definition Day (t : Z) : Z := t / msPerDay.
Definition TimeWithinDay (t : Z) : Z := t mod msPerDay.

(** A calendar date: year, month (1..12), day of the month (1..31). *)
Record Civil := mkCivil { cyear : Z; cmonth : Z; cday : Z }.

(** Proleptic Gregorian calendar: day number (days since 1970-01-01) to
    calendar date and back. Years are counted from 1 March inside eras of
    400 years (146097 days). *)
Definition civil_from_days (z : Z) : Civil :=
  let z := z + 719468 in
  let era := z / 146097 in
  let doe := z - era * 146097 in
  let yoe := (doe - doe / 1460 + doe / 36524 - doe / 146096) / 365 in
  let y := yoe + era * 400 in
  let doy := doe - (365 * yoe + yoe / 4 - yoe / 100) in
  let mp := (5 * doy + 2) / 153 in
  let d := doy - (153 * mp + 2) / 5 + 1 in
  let m := if mp <? 10 then mp + 3 else mp - 9 in
  mkCivil (if m <=? 2 then y + 1 else y) m d.

Definition days_from_civil (y m d : Z) : Z :=
  let y := if m <=? 2 then y - 1 else y in
  let era := y / 400 in
  let yoe := y - era * 400 in
  let doy := (153 * (if 2 <? m then m - 3 else m + 9) + 2) / 5 + d - 1 in
  let doe := yoe * 365 + yoe / 4 - yoe / 100 + doy in
  era * 146097 + doe - 719468.

(** [MakeDay(year, month, date)]: [month] is zero-based and may lie outside
    0..11, [date] may lie outside the month; both overflow into the
    neighbouring months and years. *)
Definition MakeDay (year month date : Z) : Z :=
  let ym := year + month / 12 in
  let mn := month mod 12 in
  days_from_civil ym (mn + 1) 1 + date - 1.

Definition MakeDate (day time : Z) : Z := day * msPerDay + time.

Section Zone.
(** Offset of local time, in minutes east of UTC. *)
Variable tz : Z.

Definition LocalTime (t : Z) : Z := t + tz * msPerMinute.
Definition UTC (t : Z) : Z := t - tz * msPerMinute.

Definition getFullYear (t : Z) : Z := cyear (civil_from_days (Day (LocalTime t))).
(** [getMonth] is zero-based. *)
Definition getMonth (t : Z) : Z := cmonth (civil_from_days (Day (LocalTime t))) - 1.
Definition getDate (t : Z) : Z := cday (civil_from_days (Day (LocalTime t))).

(** [d.setDate(n)]: the day of the month of the local date becomes [n],
    the local time of day is kept. *)
Definition setDate (t n : Z) : Z :=
  let lt := LocalTime t in
  let c := civil_from_days (Day lt) in
  UTC (MakeDate (MakeDay (cyear c) (cmonth c - 1) n) (TimeWithinDay lt)).

(** [new Date(year, month, day)]: local midnight of that date. *)
Definition newDateLocal (year month day : Z) : Z :=
  UTC (MakeDate (MakeDay year month day) 0).
End Zone.

(** [d.toISOString().split('T')[0]]: the key of the UTC day of [t]. *)
Definition toISODate (t : Z) : Z := Day t.

(** [new Date(key)] for a key [YYYY-MM-DD]: midnight UTC of that day. *)
Definition newDateOfKey (k : Z) : Z := k * msPerDay.

(** The text of a key. *)
Definition digit (n : Z) : string :=
  String (ascii_of_nat (48 + Z.to_nat (n mod 10))) EmptyString.

Definition pad2 (n : Z) : string := (digit (n / 10) ++ digit n)%string.

Definition pad4 (n : Z) : string :=
  (digit (n / 1000) ++ digit (n / 100) ++ digit (n / 10) ++ digit n)%string.

Definition civilString (c : Civil) : string :=
  (pad4 (cyear c) ++ "-" ++ pad2 (cmonth c) ++ "-" ++ pad2 (cday c))%string.

(** Rendering of a key; four-digit years, as [toISOString] prints the years
    0 to 9999. *)
Definition isoDateString (k : Z) : string := civilString (civil_from_days k).

End JSDate.

Import JSDate.

(** ** Strings *)

(** [Array.prototype.includes]. *)
Definition includes `{EqDecision A} (x : A) (l : list A) : bool :=
  bool_decide (x ∈ l).

(** The white space [String.prototype.trim] strips, among the characters a
    [string] of this embedding can hold: tab, line feed, vertical tab, form
    feed, carriage return, space and no-break space. *)
Definition isWhiteSpace (a : ascii) : bool :=
  let n := nat_of_ascii a in
  ((9 <=? n)%nat && (n <=? 13)%nat) || (n =? 32)%nat || (n =? 160)%nat.

Fixpoint trimStart (s : string) : string :=
  match s with
  | EmptyString => EmptyString
  | String a s' => if isWhiteSpace a then trimStart s' else s
  end.

Fixpoint trimEnd (s : string) : string :=
  match s with
  | EmptyString => EmptyString
  | String a s' =>
      match trimEnd s' with
      | EmptyString => if isWhiteSpace a then EmptyString else String a EmptyString
      | r => String a r
      end
  end.

Definition trim (s : string) : string := trimEnd (trimStart s).

Definition isEmptyString (s : string) : bool :=
  match s with EmptyString => true | _ => false end.

(** ** The stored data *)

Inductive Theme := light | dark.

Abbreviation DateKey := Z (only parsing).
Abbreviation DailyRecord := (gmap string bool) (only parsing).

(** The object kept under the key [tickoraData]. *)
Record Data := mkData {
  activities : list string;
  dailyData : gmap Z (gmap string bool);
  lastResetDate : Z;
  theme : Theme;
  appOpens : list Z;
  currentStreak : Z;
  bestStreak : Z;
  lastOpenDate : Z
}.

Definition set_activities (v : list string) (d : Data) : Data :=
  mkData v (dailyData d) (lastResetDate d) (theme d) (appOpens d)
         (currentStreak d) (bestStreak d) (lastOpenDate d).
Definition set_dailyData (v : gmap Z (gmap string bool)) (d : Data) : Data :=
  mkData (activities d) v (lastResetDate d) (theme d) (appOpens d)
         (currentStreak d) (bestStreak d) (lastOpenDate d).
Definition set_lastResetDate (v : Z) (d : Data) : Data :=
  mkData (activities d) (dailyData d) v (theme d) (appOpens d)
         (currentStreak d) (bestStreak d) (lastOpenDate d).
Definition set_theme (v : Theme) (d : Data) : Data :=
  mkData (activities d) (dailyData d) (lastResetDate d) v (appOpens d)
         (currentStreak d) (bestStreak d) (lastOpenDate d).
Definition set_appOpens (v : list Z) (d : Data) : Data :=
  mkData (activities d) (dailyData d) (lastResetDate d) (theme d) v
         (currentStreak d) (bestStreak d) (lastOpenDate d).
Definition set_currentStreak (v : Z) (d : Data) : Data :=
  mkData (activities d) (dailyData d) (lastResetDate d) (theme d) (appOpens d)
         v (bestStreak d) (lastOpenDate d).
Definition set_bestStreak (v : Z) (d : Data) : Data :=
  mkData (activities d) (dailyData d) (lastResetDate d) (theme d) (appOpens d)
         (currentStreak d) v (lastOpenDate d).
Definition set_lastOpenDate (v : Z) (d : Data) : Data :=
  mkData (activities d) (dailyData d) (lastResetDate d) (theme d) (appOpens d)
         (currentStreak d) (bestStreak d) v.

(** [localStorage] under the key [tickoraData]: [None] when the key is
    missing or its text does not parse to an object. *)
Abbreviation Store := (option Data) (only parsing).

(** What a user-facing operation did before it returned. *)
Inductive Alert :=
| InvalidName      (* 'Please enter a valid activity name (1-100 characters).' *)
| DuplicateName    (* 'This activity already exists!' *)
| LimitExceeded.   (* 'Maximum 50 activities allowed.' *)

Inductive Outcome :=
| Alerted (a : Alert)   (* [alert(...)] then [return]; [saveData] not reached *)
| Saved (data : Data)   (* [saveData(data)] was called on this object *)
| Untouched.            (* returned without an alert and without [saveData] *)

(** ** Getting today's date and the ranges *)

(** [getTodayDate] at the instant [now]. *)
Definition getTodayDate (now : Z) : Z := toISODate now.

Section Ranges.
Variable tz : Z.

Definition getWeekDates (now : Z) : list Z :=
  (fun i => toISODate (setDate tz now (getDate tz now - i)))
    <$> [6; 5; 4; 3; 2; 1; 0].

Definition getMonthDates (now : Z) : list Z :=
  let year := getFullYear tz now in
  let month := getMonth tz now in
  let daysInMonth := getDate tz (newDateLocal tz year (month + 1) 0) in
  (fun day => toISODate (newDateLocal tz year month day))
    <$> seqZ 1 daysInMonth.

(** The keys [generateCalendar] builds for the same days, from the local
    year, month and day. *)
Definition calendarKeys (now : Z) : list string :=
  let year := getFullYear tz now in
  let month := getMonth tz now in
  let daysInMonth := getDate tz (newDateLocal tz year (month + 1) 0) in
  (fun day => civilString (mkCivil year (month + 1) day))
    <$> seqZ 1 daysInMonth.
End Ranges.

(** The body of the [forEach] of [deleteActivity] on one record: the key
    is deleted when the record has it. *)
Definition purgeKey (name : string) (rec : gmap string bool) : gmap string bool :=
  match rec !! name with
  | Some _ => delete name rec
  | None => rec
  end.

(** ** Reading and writing the store, the streak, the operations *)

Section Ledger.

(** Offset of the host's local time, in minutes east of UTC. *)
Variable tz : Z.

(** [fits data]: the text [JSON.stringify(data)] has at most 5000000
    characters and [localStorage.setItem] accepts it. The serialisation is
    not part of the embedding. *)
Variable fits : Data -> bool.

(** What reading [div.textContent] and [div.innerText] gives after
    [div.textContent = input], for the [div] that [sanitizeInput] creates.
    The document is not part of the script. *)
Variable textContent : string -> string.
Variable innerText : string -> string.

Definition sanitizeInput (input : string) : string :=
  let t := textContent input in
  if negb (isEmptyString t) then t
  else
    let i := innerText input in
    if negb (isEmptyString i) then i else EmptyString.

(** [validateActivityName]: [None] stands for the result [false]. *)
Definition validateActivityName (name : string) : option string :=
  if isEmptyString name then None
  else
    let sanitized := trim (sanitizeInput name) in
    if ((String.length sanitized =? 0) || (100 <? String.length sanitized))%nat
    then None
    else Some sanitized.

Definition initializeData (now : Z) : Data * option Data :=
  let today := getTodayDate now in
  let data := mkData [] ∅ today light [] 0 0 today in
  (data, Some data).

(** [getData]: the parsed object, and the store afterwards (written when
    the key was missing). *)
Definition getData (now : Z) (st : option Data) : Data * option Data :=
  match st with
  | None => initializeData now
  | Some parsed => (parsed, st)
  end.

Definition saveData (data : Data) (st : option Data) : option Data :=
  if fits data then Some data else st.

Definition checkDailyReset (now : Z) (st : option Data) : option Data :=
  let '(data, st) := getData now st in
  let today := getTodayDate now in
  if bool_decide (lastResetDate data ≠ today)
  then saveData (set_lastResetDate today data) st
  else st.

(** *** [updateStreak] *)

(** The [while (true)] loop of [updateStreak]: [checkDate] steps back one
    day for as long as its key is among [sortedDates]. Every pass consumes
    one more distinct key of the array, so the loop leaves through its
    [break] within [length sortedDates] passes ([whileIncluded_stable]). *)
Fixpoint whileIncluded (passes : nat) (sortedDates : list Z)
    (checkDate currentStreak : Z) : Z :=
  match passes with
  | O => currentStreak
  | S passes' =>
      let dateStr := toISODate checkDate in
      if includes dateStr sortedDates
      then whileIncluded passes' sortedDates
             (setDate tz checkDate (getDate tz checkDate - 1))
             (currentStreak + 1)
      else currentStreak
  end.

(** The first half of [updateStreak]: the streak that ends today or
    yesterday. *)
Definition countCurrent (sortedDates : list Z) (today : Z) : Z :=
  let todayDate := newDateOfKey today in
  let checkDate := todayDate in
  if includes today sortedDates then
    let checkDate := setDate tz checkDate (getDate tz checkDate - 1) in
    whileIncluded (length sortedDates) sortedDates checkDate 1
  else
    let checkDate := setDate tz checkDate (getDate tz checkDate - 1) in
    let yesterdayStr := toISODate checkDate in
    if includes yesterdayStr sortedDates then
      let checkDate := setDate tz checkDate (getDate tz checkDate - 1) in
      whileIncluded (length sortedDates) sortedDates checkDate 1
    else 0.

(** One pass of the [for] loop over [sortedDatesObj], at index [i], on the
    pair [(bestStreak, tempStreak)]. *)
Definition scanStep (sortedDatesObj : list Z) (acc : Z * Z) (i : nat) : Z * Z :=
  let '(bestStreak, tempStreak) := acc in
  if (i =? 0)%nat then (bestStreak, 1)
  else
    let prevDate := default 0 (sortedDatesObj !! (i - 1)%nat) in
    let currDate := default 0 (sortedDatesObj !! i) in
    let diffDays := (currDate - prevDate) / (1000 * 60 * 60 * 24) in
    if diffDays =? 1 then (bestStreak, tempStreak + 1)
    else (Z.max bestStreak tempStreak, 1).

(** The second half: the longest run, then the maximum with the current
    streak. *)
Definition countBest (sortedDates : list Z) (currentStreak : Z) : Z :=
  let sortedDatesObj := merge_sort Z.le (newDateOfKey <$> sortedDates) in
  let '(bestStreak, tempStreak) :=
    fold_left (scanStep sortedDatesObj) (seq 0 (length sortedDatesObj)) (0, 0) in
  Z.max (Z.max bestStreak tempStreak) currentStreak.

(** [data.appOpens.sort()] sorts the array in place: the keys, all of the
    form [YYYY-MM-DD], come out in calendar order. *)
Definition updateStreak (now : Z) (data : Data) : Data :=
  if (length (appOpens data) =? 0)%nat then
    set_bestStreak 0 (set_currentStreak 0 data)
  else
    let sortedDates := merge_sort Z.le (appOpens data) in
    let data := set_appOpens sortedDates data in
    let today := getTodayDate now in
    let currentStreak := countCurrent sortedDates today in
    let bestStreak := countBest sortedDates currentStreak in
    set_bestStreak bestStreak (set_currentStreak currentStreak data).

Definition trackAppOpen (now : Z) (st : option Data) : Outcome * option Data :=
  let '(data, st) := getData now st in
  let today := getTodayDate now in
  if negb (includes today (appOpens data)) then
    let data := set_appOpens (appOpens data ++ [today]) data in
    let data := updateStreak now data in
    let data := set_lastOpenDate today data in
    (Saved data, saveData data st)
  else (Untouched, st).

(** *** Activities *)

Definition addActivity (now : Z) (name : string) (st : option Data)
    : Outcome * option Data :=
  match validateActivityName name with
  | None => (Alerted InvalidName, st)
  | Some validatedName =>
      let '(data, st) := getData now st in
      if includes validatedName (activities data) then
        (Alerted DuplicateName, st)
      else if (50 <=? length (activities data))%nat then
        (Alerted LimitExceeded, st)
      else
        let data := set_activities (activities data ++ [validatedName]) data in
        (Saved data, saveData data st)
  end.

(** [confirmed] is the answer of the dialog [confirm('Delete "name"?')]. *)
Definition deleteActivity (confirmed : bool) (now : Z) (name : string)
    (st : option Data) : Outcome * option Data :=
  if negb confirmed then (Untouched, st)
  else
    let '(data, st) := getData now st in
    let data :=
      set_activities (filter (fun a => a ≠ name) (activities data)) data in
    let data :=
      set_dailyData (purgeKey name <$> dailyData data) data in
    (Saved data, saveData data st).

Definition toggleActivity (now : Z) (activityName : string) (st : option Data)
    : Outcome * option Data :=
  let '(data, st) := getData now st in
  let today := getTodayDate now in
  let data :=
    match dailyData data !! today with
    | None => set_dailyData (<[today := ∅]> (dailyData data)) data
    | Some _ => data
    end in
  let rec := default ∅ (dailyData data !! today) in
  let currentStatus := default false (rec !! activityName) in
  let data :=
    set_dailyData
      (<[today := <[activityName := negb currentStatus]> rec]> (dailyData data))
      data in
  (Saved data, saveData data st).

Definition toggleTheme (now : Z) (st : option Data) : Outcome * option Data :=
  let '(data, st) := getData now st in
  let newTheme := match theme data with light => dark | dark => light end in
  let data := set_theme newTheme data in
  (Saved data, saveData data st).

End Ledger.

(** ** Statistics *)

Record Stats := mkStats { completedDays : Z; overall : Z }.

(** [Math.round]: the nearest integer, a half rounding up. *)
Definition mathRound (x : Q) : Z := Qfloor (x + (1 # 2)).

(** One pass of the inner [activities.forEach], on [(dayCompleted, hasData)]. *)
Definition activityStep (dayData : gmap string bool) (acc : Z * bool)
    (activity : string) : Z * bool :=
  let '(dayCompleted, hasData) := acc in
  let dayCompleted :=
    if bool_decide (dayData !! activity = Some true)
    then dayCompleted + 1 else dayCompleted in
  let hasData :=
    if bool_decide (dayData !! activity ≠ None) then true else hasData in
  (dayCompleted, hasData).

(** One pass of [dateRange.forEach], on
    [(daysWithData, completedDays, totalDayPercentage)]. *)
Definition dateStep (data : Data) (acc : Z * Z * Q) (date : Z) : Z * Z * Q :=
  let '(daysWithData, completedDays, totalDayPercentage) := acc in
  let dayData := default ∅ (dailyData data !! date) in
  let '(dayCompleted, hasData) :=
    fold_left (activityStep dayData) (activities data) (0, false) in
  if hasData then
    let dayPercentage :=
      (inject_Z dayCompleted / inject_Z (Z.of_nat (length (activities data)))
       * inject_Z 100)%Q in
    (daysWithData + 1,
     if Qeq_bool dayPercentage (inject_Z 100) then completedDays + 1
     else completedDays,
     (totalDayPercentage + dayPercentage)%Q)
  else acc.

Definition calculateSuccessPercentage (now : Z) (dateRange : list Z)
    (st : option Data) : Stats * option Data :=
  let '(data, st) := getData now st in
  if ((length (activities data) =? 0) || (length dateRange =? 0))%nat then
    (mkStats 0 0, st)
  else
    let '(daysWithData, completedDays, totalDayPercentage) :=
      fold_left (dateStep data) dateRange (0, 0, 0%Q) in
    let overall :=
      if 0 <? daysWithData
      then mathRound (totalDayPercentage / inject_Z daysWithData)
      else 0 in
    (mkStats completedDays overall, st).

Definition calculateWeeklyStats (tz now : Z) (st : option Data)
    : Stats * option Data :=
  calculateSuccessPercentage now (getWeekDates tz now) st.


(** ** Reachable stores *)

(** One call of an operation of the script that writes the store, at some
    instant, with some answer of the storage and of the user. *)
Inductive step (tz : Z) : option Data -> option Data -> Prop :=
| step_reset fits now st :
    step tz st (checkDailyReset fits now st)
| step_open fits now st :
    step tz st (snd (trackAppOpen tz fits now st))
| step_add fits textContent innerText now name st :
    step tz st (snd (addActivity fits textContent innerText now name st))
| step_delete fits confirmed now name st :
    step tz st (snd (deleteActivity fits confirmed now name st))
| step_toggle fits now name st :
    step tz st (snd (toggleActivity fits now name st))
| step_theme fits now st :
    step tz st (snd (toggleTheme fits now st))
| step_stats now dateRange st :
    step tz st (snd (calculateSuccessPercentage now dateRange st)).

(** The stores the script can produce from an empty [localStorage]. *)
Inductive reachable (tz : Z) : option Data -> Prop :=
| reachable_init : reachable tz None
| reachable_step st st' : reachable tz st -> step tz st st' -> reachable tz st'.

(** ** Vocabulary of the statements *)

(** [k] is the length of the maximal run of consecutive days of [opens]
    that ends at day [d]: the [k] days [d], [d-1], .., [d-k+1] are in
    [opens] and day [d-k] is not. *)
Definition runEndingAt (opens : list Z) (d k : Z) : Prop :=
  0 <= k /\ (forall i, 0 <= i < k -> d - i ∈ opens) /\ d - k ∉ opens.

(** The scan of the ascending dates: a run grows by one when the next date
    is the day after the previous one, and starts again at 1 otherwise;
    [best] is the longest run already closed. *)
Fixpoint longestRunFrom (prev run best : Z) (rest : list Z) : Z :=
  match rest with
  | [] => Z.max best run
  | x :: rest' =>
      if x - prev =? 1 then longestRunFrom x (run + 1) best rest'
      else longestRunFrom x 1 (Z.max best run) rest'
  end.

Definition longestRun (ascending : list Z) : Z :=
  match ascending with
  | [] => 0
  | x :: rest => longestRunFrom x 1 0 rest
  end.


(** The days of a range that count for the statistics. *)
Definition recordOf (data : Data) (date : Z) : gmap string bool :=
  default ∅ (dailyData data !! date).

Definition tracked (data : Data) (date : Z) : Prop :=
  Exists (fun a => is_Some (recordOf data date !! a)) (activities data).

Definition allDone (data : Data) (date : Z) : Prop :=
  Forall (fun a => recordOf data date !! a = Some true) (activities data).

#[global] Instance tracked_dec data date : Decision (tracked data date).
Proof. unfold tracked. apply _. Defined.

#[global] Instance allDone_dec data date : Decision (allDone data date).
Proof. unfold allDone. apply _. Defined.

Definition contributing (data : Data) (dateRange : list Z) : list Z :=
  filter (tracked data) dateRange.

(** Completion percentage of a day: activities marked [true] over all
    activities, times 100. *)
Definition dayPercent (data : Data) (date : Z) : Q :=
  (inject_Z (Z.of_nat (length (filter (fun a => recordOf data date !! a = Some true)
                                 (activities data))))
   / inject_Z (Z.of_nat (length (activities data))) * inject_Z 100)%Q.

Fixpoint Qsum (l : list Q) : Q :=
  match l with
  | [] => 0%Q
  | x :: l' => (x + Qsum l')%Q
  end.

Definition meanPercent (data : Data) (dates : list Z) : Q :=
  (Qsum (dayPercent data <$> dates) / inject_Z (Z.of_nat (length dates)))%Q.

(** No day is logged twice in the stored object. *)
Definition opensDistinct (st : option Data) : Prop :=
  match st with
  | Some data => NoDup (appOpens data)
  | None => True
  end.

(** [n] is an integer nearest to [x]. *)
Definition nearestInteger (x : Q) (n : Z) : Prop :=
  (Qabs (inject_Z n - x) <= 1 # 2)%Q.

(** ** Reading the day: status, progress, details, calendar, reminder *)


(** The [forEach] that counts the activities stored as [true]. *)
Definition countCompleted (dayData : gmap string bool) (activities : list string) : Z :=
  fold_left
    (fun completed activity =>
       if bool_decide (dayData !! activity = Some true)
       then completed + 1 else completed)
    activities 0.

Definition calculateProgress (now : Z) (st : option Data) : Z * option Data :=
  let '(data, st) := getData now st in
  let today := getTodayDate now in
  if (length (activities data) =? 0)%nat then (0, st)
  else
    let todayData := default ∅ (dailyData data !! today) in
    let completed := countCompleted todayData (activities data) in
    (mathRound (inject_Z completed
                / inject_Z (Z.of_nat (length (activities data)))
                * inject_Z 100)%Q,
     st).

(** The class of a line of the day-details modal: [completed],
    [not-completed], [not-started]. *)
Inductive StatusClass := StatusCompleted | StatusNotCompleted | StatusNotStarted.

#[global] Instance StatusClass_eq_dec : EqDecision StatusClass.
Proof. solve_decision. Defined.

(** What [showDayDetails] puts in the modal: the two counts, the
    percentage, and one line per activity (no line, but the text 'No
    activities added yet.', when there is no activity). *)
Record DayDetails := mkDayDetails {
  completedCount : Z;
  totalCount : Z;
  completionPercentage : Z;
  modalBody : list (StatusClass * string)
}.

Definition statusLine (dayData : gmap string bool) (activity : string)
    : StatusClass * string :=
  let isCompleted := bool_decide (dayData !! activity = Some true) in
  let isStarted := bool_decide (dayData !! activity <> None) in
  (if isCompleted then StatusCompleted
   else if isStarted then StatusNotCompleted else StatusNotStarted,
   activity).

Definition showDayDetails (now : Z) (dateStr : Z) (st : option Data)
    : DayDetails * option Data :=
  let '(data, st) := getData now st in
  let dayData := default ∅ (dailyData data !! dateStr) in
  let completedCount := countCompleted dayData (activities data) in
  let totalCount := Z.of_nat (length (activities data)) in
  let completionPercentage :=
    if 0 <? totalCount
    then mathRound (inject_Z completedCount / inject_Z totalCount * inject_Z 100)%Q
    else 0 in
  (mkDayDetails completedCount totalCount completionPercentage
     (statusLine dayData <$> activities data),
   st).

(** The class [generateCalendar] adds to the cell of a day ([None]: no
    class), and the text of its percentage label ([None]: no label). *)
Inductive CellClass := CellCompleted | CellPartial | CellEmpty.

#[global] Instance CellClass_eq_dec : EqDecision CellClass.
Proof. solve_decision. Defined.









(** The notification of [sendDailyReminderNotification]. *)
Inductive Reminder :=
| ReminderGeneric                        (* 'Don't forget to complete ...' *)
| ReminderIncomplete (incompleteCount : Z)  (* 'You have n incomplete ...' *)
| ReminderAllDone.                       (* 'Great job! All activities ...' *)

(** [granted]: the browser has notifications and the permission is
    'granted'. *)
Definition sendDailyReminderNotification (granted : bool) (now : Z)
    (st : option Data) : option Reminder * option Data :=
  if granted then
    let '(data, st) := getData now st in
    let today := getTodayDate now in
    let todayData := default ∅ (dailyData data !! today) in
    if (length (activities data) =? 0)%nat then (Some ReminderGeneric, st)
    else
      let incompleteCount :=
        fold_left
          (fun incompleteCount activity =>
             if negb (default false (todayData !! activity))
             then incompleteCount + 1 else incompleteCount)
          (activities data) 0 in
      if 0 <? incompleteCount
      then (Some (ReminderIncomplete incompleteCount), st)
      else (Some ReminderAllDone, st)
  else (None, st).

(** What a call of [scheduleDailyReminder] did: the notification shown,
    the marks and the store afterwards, and whether the call ended in the
    exception of a refused [localStorage.setItem]. *)
Record Scheduled := mkScheduled {
  shown : option Reminder;
  marks : gset Z;
  stored : option Data;
  thrown : bool
}.

(** [sent] holds the days [d] for which [localStorage] has the key
    [daily_reminder_d]; [takesMark]: [localStorage.setItem] accepts the
    mark. *)
Definition scheduleDailyReminder (granted takesMark : bool) (now : Z)
    (sent : gset Z) (st : option Data) : Scheduled :=
  let today := getTodayDate now in
  if bool_decide (today ∉ sent) then
    let '(notification, st) := sendDailyReminderNotification granted now st in
    if takesMark then mkScheduled notification ({[today]} ∪ sent) st false
    else mkScheduled notification sent st true
  else mkScheduled None sent st false.

(** ** Vocabulary of the further properties *)

(** The object of an empty [localStorage], and the objects the operations
    save, as changes of the object they read. *)
Definition defaults (now : Z) : Data := fst (initializeData now).

Definition toggled (now : Z) (name : string) (d : Data) : Data :=
  set_dailyData
    (<[getTodayDate now :=
         <[name := negb (default false (recordOf d (getTodayDate now) !! name))]>
           (recordOf d (getTodayDate now))]> (dailyData d)) d.

Definition opened (tz now : Z) (d : Data) : Data :=
  set_lastOpenDate (getTodayDate now)
    (updateStreak tz now (set_appOpens (appOpens d ++ [getTodayDate now]) d)).

Definition deleted (name : string) (d : Data) : Data :=
  set_dailyData (purgeKey name <$> dailyData d)
    (set_activities (filter (fun a => a <> name) (activities d)) d).

Inductive effect (tz : Z) : Data -> Data -> Prop :=
| effect_reset today d :
    effect tz d (set_lastResetDate today d)
| effect_open now d :
    getTodayDate now ∉ appOpens d -> effect tz d (opened tz now d)
| effect_add textContent innerText rawName name d :
    validateActivityName textContent innerText rawName = Some name ->
    name ∉ activities d -> (length (activities d) < 50)%nat ->
    effect tz d (set_activities (activities d ++ [name]) d)
| effect_delete name d :
    effect tz d (deleted name d)
| effect_toggle now name d :
    effect tz d (toggled now name d)
| effect_theme th d :
    effect tz d (set_theme th d).

Definition activitiesWellFormed (d : Data) : Prop :=
  NoDup (activities d)
  /\ (length (activities d) <= 50)%nat
  /\ Forall (fun a => (1 <= String.length a <= 100)%nat) (activities d).



(** Number of activities stored as [true] in a record. *)
Definition doneCount (rec : gmap string bool) (acts : list string) : nat :=
  length (filter (fun a => rec !! a = Some true) acts).

(** The percentage of [k] out of [n], rounded. *)
Definition percentOf (k n : Z) : Z :=
  mathRound (inject_Z k / inject_Z n * inject_Z 100)%Q.



(** ** Sample data *)

Definition jan (d : Z) : Z := days_from_civil 2024 1 d.

Definition blank : Data := mkData [] ∅ (jan 1) light [] 0 0 (jan 1).

Definition threeDays : Data := set_appOpens [jan 1; jan 2; jan 3] blank.

(** Noon UTC of 3 January 2024. *)
Definition noonJan3 : Z := newDateOfKey (jan 3) + 12 * 3600000.

(** 20:00 UTC of 15 January 2024; in a zone five and a half hours east of
    UTC the clock shows 01:30 of 16 January. *)
Definition eveningJan15 : Z := newDateOfKey (jan 15) + 20 * 3600000.

(** Two activities; both done on 1 January, one of two on 2 January,
    nothing recorded on 3 January. *)
Definition gymRead : Data :=
  set_dailyData
    (<[jan 1 := <["Gym"%string := true]> (<["Read"%string := true]> ∅)]>
       (<[jan 2 := <["Gym"%string := true]> (<["Read"%string := false]> ∅)]> ∅))
    (set_activities ["Gym"%string; "Read"%string] blank).


(** A record that holds a key of no activity. *)
Definition orphaned : Data :=
  set_dailyData (<[jan 3 := <["Ghost"%string := true]> ∅]> ∅) blank.

(** A store that accepts every write, a document that returns the text as
    it is. *)
Definition roomy (_ : Data) : bool := true.
Definition sameText (s : string) : string := s.

(** The store after a first launch at noon of 2 January 2024 and the
    adding of an activity, and after a further launch at noon of
    3 January. *)
Definition firstDay : option Data :=
  snd (addActivity roomy sameText sameText (noonJan3 - msPerDay) " Gym"
         (snd (trackAppOpen 330 roomy (noonJan3 - msPerDay) None))).

Definition secondDay : option Data := snd (trackAppOpen 330 roomy noonJan3 firstDay).


Definition secondDayData : Data :=
  mkData ["Gym"%string] ∅ (jan 2) light [jan 2; jan 3] 2 2 (jan 3).

(** * Properties *)

(** ** Calendar arithmetic *)

(** [lia] after the quotients and remainders by constants are replaced by
    their defining equations. *)
Ltac dlia := Z.div_mod_to_equations; lia.

(** Closes a decidable closed goal by evaluation. *)
Ltac by_evaluation := apply (bool_decide_unpack _); vm_compute; exact I.

Section CalendarFacts.

Lemma civil_from_days_bounds z :
  let z1 := z + 719468 in
  let doe := z1 - z1 / 146097 * 146097 in
  let yoe := (doe - doe / 1460 + doe / 36524 - doe / 146096) / 365 in
  let doy := doe - (365 * yoe + yoe / 4 - yoe / 100) in
  let mp := (5 * doy + 2) / 153 in
  0 <= doe < 146097 /\ 0 <= yoe < 400 /\ 0 <= doy < 366 /\ 0 <= mp < 12.
Proof.
  intros z1 doe yoe doy mp.
  assert (Hdoe : 0 <= doe < 146097) by (subst doe; dlia).
  assert (Hyoe : 0 <= yoe < 400) by (subst yoe; clearbody doe; dlia).
  assert (Hdoy : 0 <= doy < 366) by (subst doy yoe; clearbody doe; dlia).
  assert (Hmp : 0 <= mp < 12) by (subst mp; clearbody doy; dlia).
  auto.
Qed.

Lemma civil_month_range z : 1 <= cmonth (civil_from_days z) <= 12.
Proof.
  pose proof (civil_from_days_bounds z) as H. cbv zeta in H.
  destruct H as (_ & _ & _ & Hmp).
  unfold civil_from_days; cbn [cmonth].
  match goal with |- context [?a <? 10] => destruct (Z.ltb_spec a 10) end; lia.
Qed.

Lemma days_civil_roundtrip z :
  days_from_civil (cyear (civil_from_days z)) (cmonth (civil_from_days z))
                  (cday (civil_from_days z)) = z.
Proof.
  pose proof (civil_from_days_bounds z) as H. cbv zeta in H.
  destruct H as (Hdoe & Hyoe & Hdoy & Hmp).
  unfold civil_from_days, days_from_civil; cbn zeta; cbn [cyear cmonth cday].
  remember (z + 719468) as z1 eqn:Ez1.
  remember (z1 / 146097) as era eqn:Eera.
  remember (z1 - era * 146097) as doe eqn:Edoe.
  remember ((doe - doe / 1460 + doe / 36524 - doe / 146096) / 365) as yoe eqn:Eyoe.
  remember (doe - (365 * yoe + yoe / 4 - yoe / 100)) as doy eqn:Edoy.
  remember ((5 * doy + 2) / 153) as mp eqn:Emp.
  assert (Hera : (yoe + era * 400) / 400 = era) by (clear - Hyoe; dlia).
  destruct (Z.ltb_spec mp 10).
  - destruct (Z.leb_spec (mp + 3) 2); [lia|].
    destruct (Z.ltb_spec 2 (mp + 3)); [|lia].
    replace (mp + 3 - 3) with mp by lia.
    rewrite Hera. clear Hera Eera Eyoe Emp. dlia.
  - destruct (Z.leb_spec (mp - 9) 2); [|lia].
    destruct (Z.ltb_spec 2 (mp - 9)); [lia|].
    replace (mp - 9 + 9) with mp by lia.
    replace (yoe + era * 400 + 1 - 1) with (yoe + era * 400) by lia.
    rewrite Hera. clear Hera Eera Eyoe Emp. dlia.
Qed.

Lemma days_from_civil_day y m d :
  days_from_civil y m d = days_from_civil y m 1 + d - 1.
Proof. unfold days_from_civil. lia. Qed.

Lemma MakeDay_civil z n :
  MakeDay (cyear (civil_from_days z)) (cmonth (civil_from_days z) - 1) n
  = z + n - cday (civil_from_days z).
Proof.
  pose proof (civil_month_range z) as Hm.
  pose proof (days_civil_roundtrip z) as Hr.
  rewrite days_from_civil_day in Hr.
  unfold MakeDay.
  replace ((cmonth (civil_from_days z) - 1) / 12) with 0 by dlia.
  replace ((cmonth (civil_from_days z) - 1) mod 12 + 1)
    with (cmonth (civil_from_days z)) by dlia.
  rewrite Z.add_0_r. lia.
Qed.

Lemma setDate_getDate tz t k :
  setDate tz t (getDate tz t - k) = t - k * msPerDay.
Proof.
  unfold setDate, getDate. rewrite MakeDay_civil.
  unfold UTC, MakeDate, LocalTime, Day, TimeWithinDay, msPerDay, msPerMinute.
  dlia.
Qed.

Lemma toISODate_back t k : toISODate (t - k * msPerDay) = toISODate t - k.
Proof. unfold toISODate, Day, msPerDay. dlia. Qed.

Lemma toISODate_newDateOfKey k : toISODate (newDateOfKey k) = k.
Proof. unfold toISODate, newDateOfKey, Day, msPerDay. dlia. Qed.

End CalendarFacts.

Example iso_epoch : isoDateString 0 = "1970-01-01"%string.
Proof. reflexivity. Qed.

Example iso_leap_day : isoDateString (days_from_civil 2024 2 29) = "2024-02-29"%string.
Proof. reflexivity. Qed.

Example jan_3_2024 : jan 3 = 19725.
Proof. reflexivity. Qed.

(** ** The date keys *)



(** The weekly range: the seven UTC days that end at the UTC day of [now]. *)
Lemma getWeekDates_keys tz now :
  getWeekDates tz now = (fun i => getTodayDate now - i) <$> [6; 5; 4; 3; 2; 1; 0].
Proof.
  unfold getWeekDates, getTodayDate. cbn [fmap list_fmap].
  by rewrite !setDate_getDate, !toISODate_back.
Qed.


(** ** The current streak *)

Lemma includes_true `{EqDecision A} (x : A) (l : list A) :
  includes x l = true <-> x ∈ l.
Proof. unfold includes. apply bool_decide_eq_true. Qed.

Lemma includes_false `{EqDecision A} (x : A) (l : list A) :
  includes x l = false <-> x ∉ l.
Proof. unfold includes. apply bool_decide_eq_false. Qed.

Lemma runEndingAt_unique opens d k1 k2 :
  runEndingAt opens d k1 -> runEndingAt opens d k2 -> k1 = k2.
Proof.
  intros (H1 & Hin1 & Hout1) (H2 & Hin2 & Hout2).
  destruct (Z.lt_trichotomy k1 k2) as [Hlt | [Heq | Hgt]]; [|done|].
  - exfalso. apply Hout1, Hin2. lia.
  - exfalso. apply Hout2, Hin1. lia.
Qed.

Lemma runEndingAt_perm opens opens' d k :
  opens ≡ₚ opens' -> runEndingAt opens d k -> runEndingAt opens' d k.
Proof.
  intros Hp (H0 & Hin & Hout). split; [done|]. split.
  - intros i Hi. rewrite <- Hp. auto.
  - rewrite <- Hp. done.
Qed.

Lemma runEndingAt_extend opens d k :
  d ∈ opens -> runEndingAt opens (d - 1) k -> runEndingAt opens d (1 + k).
Proof.
  intros Hd (H0 & Hin & Hout). split; [lia|]. split.
  - intros i Hi. destruct (decide (i = 0)) as [-> | Hne].
    + by rewrite Z.sub_0_r.
    + replace (d - i) with (d - 1 - (i - 1)) by lia. apply Hin. lia.
  - replace (d - (1 + k)) with (d - 1 - k) by lia. done.
Qed.

(** Days that are all among [opens] are no more than [opens] has entries. *)
Lemma run_within_length (opens : list Z) d j :
  0 <= j -> (forall i, 0 <= i < j -> d - i ∈ opens) ->
  j <= Z.of_nat (length opens).
Proof.
  intros Hj Hin.
  set (keys := (fun i : nat => d - Z.of_nat i) <$> seq 0 (Z.to_nat j)).
  assert (Hnd : NoDup keys).
  { apply NoDup_fmap_2_strong; [|apply NoDup_seq].
    intros x y _ _ Hxy. lia. }
  assert (Hsub : keys ⊆+ opens).
  { apply NoDup_submseteq; [done|].
    intros x Hx. apply list_elem_of_fmap in Hx as (i & -> & Hi).
    apply elem_of_seq in Hi. apply Hin. lia. }
  apply submseteq_length in Hsub.
  unfold keys in Hsub. rewrite length_fmap, length_seq in Hsub. lia.
Qed.

Section CurrentStreak.

Variable tz : Z.

Lemma whileIncluded_hits n opens t c :
  exists j, 0 <= j <= Z.of_nat n
    /\ whileIncluded tz n opens t c = c + j
    /\ (forall i, 0 <= i < j -> toISODate t - i ∈ opens)
    /\ (j < Z.of_nat n -> toISODate t - j ∉ opens).
Proof.
  revert t c. induction n as [|n IH]; intros t c.
  - exists 0. cbn. repeat split; lia.
  - cbn [whileIncluded]. cbv zeta.
    destruct (includes (toISODate t) opens) eqn:Hinc.
    + apply includes_true in Hinc.
      destruct (IH (setDate tz t (getDate tz t - 1)) (c + 1))
        as (j & Hj & Hres & Hin & Hout).
      rewrite setDate_getDate, toISODate_back in Hin, Hout.
      exists (j + 1). repeat split; try lia.
      * intros i Hi. destruct (decide (i = 0)) as [-> | Hne].
        -- by rewrite Z.sub_0_r.
        -- replace (toISODate t - i) with (toISODate t - 1 - (i - 1)) by lia.
           apply Hin. lia.
      * intros Hlt. replace (toISODate t - (j + 1)) with (toISODate t - 1 - j) by lia.
        apply Hout. lia.
    + apply includes_false in Hinc.
      exists 0. repeat split; try lia.
      intros _. by rewrite Z.sub_0_r.
Qed.

(** With at least [length opens] passes allowed the loop ends at a day that
    is not among [opens]: its result is the run that ends at the key of
    [checkDate]. *)
Lemma whileIncluded_run n opens t c :
  (length opens <= n)%nat ->
  exists j, runEndingAt opens (toISODate t) j
    /\ whileIncluded tz n opens t c = c + j.
Proof.
  intros Hn.
  destruct (whileIncluded_hits n opens t c) as (j & Hj & Hres & Hin & Hout).
  exists j. split; [|done].
  split; [lia|]. split; [done|].
  pose proof (run_within_length opens (toISODate t) j ltac:(lia) Hin) as Hlen.
  destruct (decide (j < Z.of_nat n)) as [Hlt | Hge]; [auto|].
  intros Hmem.
  pose proof (run_within_length opens (toISODate t) (j + 1) ltac:(lia)) as Hlen'.
  enough (j + 1 <= Z.of_nat (length opens)) by lia.
  apply Hlen'. intros i Hi.
  destruct (decide (i = j)) as [-> | Hne]; [done|]. apply Hin. lia.
Qed.

Lemma whileIncluded_stable n opens t c :
  (length opens <= n)%nat ->
  whileIncluded tz n opens t c = whileIncluded tz (length opens) opens t c.
Proof.
  intros Hn.
  destruct (whileIncluded_run n opens t c Hn) as (j & Hrun & ->).
  destruct (whileIncluded_run (length opens) opens t c (Nat.le_refl _))
    as (j' & Hrun' & ->).
  f_equal. eapply runEndingAt_unique; eauto.
Qed.

Lemma countCurrent_today opens today :
  today ∈ opens -> runEndingAt opens today (countCurrent tz opens today).
Proof.
  intros Hin. unfold countCurrent. cbv zeta.
  rewrite (proj2 (includes_true today opens) Hin).
  destruct (whileIncluded_run (length opens) opens
              (setDate tz (newDateOfKey today) (getDate tz (newDateOfKey today) - 1))
              1 (Nat.le_refl _)) as (j & Hrun & ->).
  rewrite setDate_getDate, toISODate_back, toISODate_newDateOfKey in Hrun.
  by apply runEndingAt_extend.
Qed.

Lemma countCurrent_yesterday opens today :
  today ∉ opens -> today - 1 ∈ opens ->
  runEndingAt opens (today - 1) (countCurrent tz opens today).
Proof.
  intros Hout Hin. unfold countCurrent. cbv zeta.
  rewrite (proj2 (includes_false today opens) Hout).
  rewrite !setDate_getDate, !toISODate_back, toISODate_newDateOfKey.
  rewrite (proj2 (includes_true (today - 1) opens) Hin).
  destruct (whileIncluded_run (length opens) opens
              (newDateOfKey today - 1 * msPerDay - 1 * msPerDay)
              1 (Nat.le_refl _)) as (j & Hrun & ->).
  rewrite !toISODate_back, toISODate_newDateOfKey in Hrun.
  by apply runEndingAt_extend.
Qed.

Lemma countCurrent_neither opens today :
  today ∉ opens -> today - 1 ∉ opens -> countCurrent tz opens today = 0.
Proof.
  intros Hout Hout'. unfold countCurrent. cbv zeta.
  rewrite (proj2 (includes_false today opens) Hout).
  rewrite !setDate_getDate, !toISODate_back, toISODate_newDateOfKey.
  by rewrite (proj2 (includes_false (today - 1) opens) Hout').
Qed.

Lemma length_zero_nil {A} (l : list A) : (length l =? 0)%nat = true <-> l = [].
Proof. rewrite Nat.eqb_eq. split; [apply nil_length_inv | by intros ->]. Qed.

Lemma currentStreak_updateStreak now data :
  currentStreak (updateStreak tz now data)
  = if (length (appOpens data) =? 0)%nat then 0
    else countCurrent tz (merge_sort Z.le (appOpens data)) (getTodayDate now).
Proof. unfold updateStreak. by destruct (length (appOpens data) =? 0)%nat. Qed.

Lemma current_streak_spec now data :
  let opens := appOpens data in
  let today := getTodayDate now in
  let streak := currentStreak (updateStreak tz now data) in
  (today ∈ opens -> runEndingAt opens today streak)
  /\ (today ∉ opens -> today - 1 ∈ opens -> runEndingAt opens (today - 1) streak)
  /\ (today ∉ opens -> today - 1 ∉ opens -> streak = 0).
Proof.
  intros opens today streak. subst streak.
  rewrite currentStreak_updateStreak. fold opens. fold today.
  pose proof (merge_sort_Permutation Z.le opens) as Hp.
  destruct (length opens =? 0)%nat eqn:Hlen.
  - apply length_zero_nil in Hlen. rewrite Hlen.
    split; [intros H; by apply elem_of_nil in H|].
    split; [intros _ H; by apply elem_of_nil in H|done].
  - split; [|split].
    + intros Hin. apply (runEndingAt_perm _ _ _ _ Hp).
      apply countCurrent_today. by rewrite Hp.
    + intros Hout Hin. apply (runEndingAt_perm _ _ _ _ Hp).
      apply countCurrent_yesterday; by rewrite Hp.
    + intros Hout Hout'. apply countCurrent_neither; by rewrite Hp.
Qed.

End CurrentStreak.


(** ** The best streak *)

Lemma newDateOfKey_mono : forall x y, x <= y -> newDateOfKey x <= newDateOfKey y.
Proof. intros x y. unfold newDateOfKey, msPerDay. lia. Qed.

Lemma diffDays_keys x p :
  (newDateOfKey x - newDateOfKey p) / (1000 * 60 * 60 * 24) = x - p.
Proof. unfold newDateOfKey, msPerDay. dlia. Qed.

(** Sorting the [Date] objects of keys that are in order moves nothing. *)
Lemma sort_dates_of_sorted (ks : list Z) :
  Sorted Z.le ks -> merge_sort Z.le (newDateOfKey <$> ks) = newDateOfKey <$> ks.
Proof.
  intros Hs. apply (Sorted_unique Z.le).
  - apply Sorted_merge_sort; apply _.
  - apply Sorted_fmap with (R1 := Z.le); [apply newDateOfKey_mono | done].
  - apply merge_sort_Permutation.
Qed.

Lemma scan_from (ks l1 : list Z) p rest b t :
  ks = l1 ++ p :: rest ->
  let '(b', t') :=
    fold_left (scanStep (newDateOfKey <$> ks))
              (seq (S (length l1)) (length rest)) (b, t) in
  Z.max b' t' = longestRunFrom p t b rest.
Proof.
  revert l1 p b t. induction rest as [|x rest IH]; intros l1 p b t Hks.
  - done.
  - cbn [length seq fold_left longestRunFrom].
    assert (Hprev : (newDateOfKey <$> ks) !! length l1 = Some (newDateOfKey p)).
    { rewrite list_lookup_fmap, Hks, lookup_app_r by lia.
      by rewrite Nat.sub_diag. }
    assert (Hcurr : (newDateOfKey <$> ks) !! S (length l1) = Some (newDateOfKey x)).
    { rewrite list_lookup_fmap, Hks, lookup_app_r by lia.
      by replace (S (length l1) - length l1)%nat with 1%nat by lia. }
    unfold scanStep at 2. cbn [Nat.eqb].
    replace (S (length l1) - 1)%nat with (length l1) by lia.
    rewrite Hprev, Hcurr. cbn [default from_option]. unfold id. rewrite diffDays_keys.
    specialize (IH (l1 ++ [p]) x).
    rewrite length_app in IH. cbn [length] in IH.
    replace (length l1 + 1)%nat with (S (length l1)) in IH by lia.
    destruct (x - p =? 1).
    + apply IH. by rewrite <- app_assoc.
    + apply IH. by rewrite <- app_assoc.
Qed.

Lemma countBest_sorted (ks : list Z) c :
  Sorted Z.le ks -> countBest ks c = Z.max (longestRun ks) c.
Proof.
  intros Hs. unfold countBest. rewrite sort_dates_of_sorted by done.
  rewrite length_fmap.
  destruct ks as [|x rest]; [done|].
  cbn [length seq fold_left longestRun]. unfold scanStep at 2. cbn [Nat.eqb].
  pose proof (scan_from (x :: rest) [] x rest 0 1 eq_refl) as H.
  cbn [length] in H.
  destruct (fold_left _ _ _) as [b' t']. by rewrite H.
Qed.

Lemma bestStreak_updateStreak tz now data :
  bestStreak (updateStreak tz now data)
  = if (length (appOpens data) =? 0)%nat then 0
    else countBest (merge_sort Z.le (appOpens data))
           (currentStreak (updateStreak tz now data)).
Proof. unfold updateStreak. by destruct (length (appOpens data) =? 0)%nat. Qed.

Lemma Sorted_sort (l : list Z) : Sorted Z.le (merge_sort Z.le l).
Proof. apply Sorted_merge_sort; apply _. Qed.

Lemma sort_unique (l asc : list Z) :
  Sorted Z.le asc -> asc ≡ₚ l -> merge_sort Z.le l = asc.
Proof.
  intros Hs Hp. apply (Sorted_unique Z.le); [apply Sorted_sort | done |].
  by rewrite merge_sort_Permutation, Hp.
Qed.

Lemma best_streak_spec tz now data asc :
  appOpens data <> [] -> Sorted Z.le asc -> asc ≡ₚ appOpens data ->
  bestStreak (updateStreak tz now data)
  = Z.max (longestRun asc) (currentStreak (updateStreak tz now data)).
Proof.
  intros Hne Hs Hp. rewrite bestStreak_updateStreak.
  destruct (length (appOpens data) =? 0)%nat eqn:Hlen.
  - by apply length_zero_nil in Hlen.
  - rewrite (sort_unique _ _ Hs Hp). by apply countBest_sorted.
Qed.

Lemma streaks_of_empty tz now data :
  appOpens data = [] ->
  currentStreak (updateStreak tz now data) = 0
  /\ bestStreak (updateStreak tz now data) = 0.
Proof. intros H. unfold updateStreak. by rewrite H. Qed.

(** ** The scan finds the longest run *)

Lemma strictly_sorted (l : list Z) :
  Sorted Z.le l -> NoDup l -> StronglySorted Z.lt l.
Proof.
  intros Hs Hnd. apply Sorted_StronglySorted in Hs; [|apply _].
  induction Hs as [|x l Hs IH Hall]; [constructor|].
  apply NoDup_cons in Hnd as [Hx Hnd]. constructor; [auto|].
  rewrite Forall_forall in *. intros y Hy.
  specialize (Hall y Hy). enough (x <> y) by lia. by intros ->.
Qed.










(** ** Idempotence of the streak update *)

Lemma sort_sort (l : list Z) : merge_sort Z.le (merge_sort Z.le l) = merge_sort Z.le l.
Proof. apply sort_unique; [apply Sorted_sort | done]. Qed.

Lemma sort_perm (l l' : list Z) : l ≡ₚ l' -> merge_sort Z.le l = merge_sort Z.le l'.
Proof.
  intros Hp. apply sort_unique; [apply Sorted_sort|].
  by rewrite merge_sort_Permutation.
Qed.

Lemma length_sort (l : list Z) : length (merge_sort Z.le l) = length l.
Proof. apply Permutation_length, merge_sort_Permutation. Qed.

Lemma updateStreak_idempotent tz now data :
  updateStreak tz now (updateStreak tz now data) = updateStreak tz now data.
Proof.
  unfold updateStreak at 2.
  destruct (length (appOpens data) =? 0)%nat eqn:Hlen.
  - unfold updateStreak. cbn. by rewrite Hlen.
  - unfold updateStreak. cbn. by rewrite length_sort, Hlen, sort_sort.
Qed.

Lemma updateStreak_streaks_perm tz now data data' :
  appOpens data ≡ₚ appOpens data' ->
  currentStreak (updateStreak tz now data) = currentStreak (updateStreak tz now data')
  /\ bestStreak (updateStreak tz now data) = bestStreak (updateStreak tz now data').
Proof.
  intros Hp. rewrite !bestStreak_updateStreak, !currentStreak_updateStreak.
  rewrite <- (Permutation_length Hp), (sort_perm _ _ Hp).
  by destruct (length (appOpens data) =? 0)%nat.
Qed.

(** ** Adding an activity *)

Section Activities.

Variable fits : Data -> bool.
Variable textContent innerText : string -> string.

Abbreviation sanitized raw := (trim (sanitizeInput textContent innerText raw)).
Abbreviation validate := (validateActivityName textContent innerText).
Abbreviation add := (addActivity fits textContent innerText).


Lemma validate_Some raw v :
  validate raw = Some v <->
  raw <> EmptyString /\ v = sanitized raw
  /\ (1 <= String.length v <= 100)%nat.
Proof.
  unfold validateActivityName.
  destruct raw as [|a raw']; cbn [isEmptyString].
  { split; [done | by intros [? _]]. }
  cbv zeta.
  destruct (Nat.eqb_spec (String.length (sanitized (String a raw'))) 0) as [E0|E0];
  destruct (Nat.ltb_spec 100 (String.length (sanitized (String a raw')))) as [E1|E1];
  cbn [orb].
  1-3: split; [done | intros (_ & -> & ?); lia].
  split.
  - intros [= <-]. repeat split; try done; lia.
  - intros (_ & -> & _). done.
Qed.


Lemma addActivity_duplicate now raw v data :
  validate raw = Some v -> v ∈ activities data ->
  add now raw (Some data) = (Alerted DuplicateName, Some data).
Proof.
  intros Hv Hin. unfold addActivity. rewrite Hv. cbn.
  by rewrite (proj2 (includes_true v (activities data)) Hin).
Qed.



(** The outcome of [addActivity] tells which case was taken. *)
Lemma addActivity_Saved now raw data d1 st1 :
  add now raw (Some data) = (Saved d1, st1) ->
  exists v, validate raw = Some v /\ (v ∉ activities data)
    /\ d1 = set_activities (activities data ++ [v]) data.
Proof.
  unfold addActivity. destruct (validate raw) as [v|]; [|done].
  cbn [getData].
  destruct (includes v (activities data)) eqn:Hinc; [done|].
  destruct (50 <=? length (activities data))%nat; [done|].
  intros [= <- _]. exists v. by apply includes_false in Hinc.
Qed.

End Activities.


(** ** Toggling and deleting *)

Lemma filter_all {A} (P : A -> Prop) `{forall x, Decision (P x)} (l : list A) :
  Forall P l -> filter P l = l.
Proof.
  induction 1 as [|x l Hx _ IH]; [done|].
  by rewrite filter_cons, decide_True, IH.
Qed.

Section Toggle.

Variable fits : Data -> bool.

(** The object [toggleActivity] hands to [saveData]. *)
Lemma toggleActivity_Some now name data :
  let today := getTodayDate now in
  let rec := recordOf data today in
  let data' :=
    set_dailyData
      (<[today := <[name := negb (default false (rec !! name))]> rec]>
         (dailyData data)) data in
  toggleActivity fits now name (Some data)
  = (Saved data', saveData fits data' (Some data)).
Proof.
  intros today rec data'. subst data' rec. unfold toggleActivity, recordOf.
  cbn [getData]. fold today.
  destruct (dailyData data !! today) as [r|] eqn:Hr.
  - by rewrite Hr.
  - cbn [dailyData set_dailyData]. rewrite lookup_insert_eq. cbn [default from_option].
    unfold set_dailyData; cbn. unfold id. by rewrite insert_insert_eq.
Qed.


Lemma purgeKey_delete name rec : purgeKey name rec = delete name rec.
Proof.
  unfold purgeKey. destruct (rec !! name) eqn:E; [done|].
  by rewrite delete_id.
Qed.

Lemma deleteActivity_declined now name st :
  deleteActivity fits false now name st = (Untouched, st).
Proof. done. Qed.

Lemma deleteActivity_spec now name data :
  exists data',
    deleteActivity fits true now name (Some data)
    = (Saved data', saveData fits data' (Some data))
    /\ activities data' = filter (fun a => a <> name) (activities data)
    /\ (name ∉ activities data')
    /\ (forall date rec, dailyData data' !! date = Some rec -> rec !! name = None)
    /\ (forall date key, key <> name ->
          recordOf data' date !! key = recordOf data date !! key)
    /\ (name ∉ activities data -> activities data' = activities data)
    /\ (name ∉ activities data ->
        (forall date rec, dailyData data !! date = Some rec -> rec !! name = None) ->
        data' = data).
Proof.
  eexists. split; [reflexivity|]. cbn [activities dailyData set_activities set_dailyData].
  split; [done|]. split.
  { rewrite list_elem_of_filter. by intros [? _]. }
  split.
  { intros date rec. rewrite lookup_fmap.
    destruct (dailyData data !! date) as [r|]; [|done].
    cbn. intros [= <-].
    rewrite purgeKey_delete. apply lookup_delete_eq. }
  split.
  { intros date key Hk. unfold recordOf.
    cbn [dailyData set_dailyData set_activities]. rewrite lookup_fmap.
    destruct (dailyData data !! date) as [r|]; [|done].
    cbn. rewrite purgeKey_delete. by apply lookup_delete_ne. }
  assert (Hact : name ∉ activities data ->
                 filter (fun a => a <> name) (activities data) = activities data).
  { intros Hout. apply filter_all. apply Forall_forall. intros a Ha ->. done. }
  split; [done|].
  intros Hout Hkeys. destruct data as [acts dd lr th ao cs bs lo]. cbn in *.
  unfold set_dailyData, set_activities; cbn. f_equal; [auto|].
  apply map_eq. intros date. rewrite lookup_fmap.
  destruct (dd !! date) as [r|] eqn:Hr; [|done].
  cbn. unfold purgeKey. by rewrite (Hkeys date r Hr).
Qed.

End Toggle.


(** ** The log of app opens *)

Lemma appOpens_updateStreak tz now data :
  appOpens (updateStreak tz now data) ≡ₚ appOpens data.
Proof.
  unfold updateStreak. destruct (length (appOpens data) =? 0)%nat; [done|].
  cbn. apply merge_sort_Permutation.
Qed.

Lemma getData_distinct now st :
  opensDistinct st ->
  NoDup (appOpens (fst (getData now st))) /\ opensDistinct (snd (getData now st)).
Proof.
  destruct st as [data|]; cbn; [done|].
  intros _. split; apply NoDup_nil_2.
Qed.

Lemma saveData_distinct fits data st :
  NoDup (appOpens data) -> opensDistinct st -> opensDistinct (saveData fits data st).
Proof. intros Hd Hst. unfold saveData. by destruct (fits data). Qed.

Lemma trackAppOpen_present tz fits now data :
  getTodayDate now ∈ appOpens data ->
  trackAppOpen tz fits now (Some data) = (Untouched, Some data).
Proof.
  intros Hin. unfold trackAppOpen. cbn [getData].
  by rewrite (proj2 (includes_true _ _) Hin).
Qed.

Lemma trackAppOpen_distinct tz fits now st :
  opensDistinct st -> opensDistinct (snd (trackAppOpen tz fits now st)).
Proof.
  intros Hst. unfold trackAppOpen.
  destruct (getData_distinct now st Hst) as [Hd Hst1].
  destruct (getData now st) as [data st1]. cbn [fst snd] in *.
  destruct (includes (getTodayDate now) (appOpens data)) eqn:Hinc; cbn [negb snd]; [done|].
  apply includes_false in Hinc.
  apply saveData_distinct; [|done].
  cbn [appOpens set_lastOpenDate]. rewrite appOpens_updateStreak.
  cbn [appOpens set_appOpens].
  apply NoDup_app. split; [done|]. split.
  - intros x Hx Hx'. apply list_elem_of_singleton in Hx'. by subst.
  - apply NoDup_singleton.
Qed.

Lemma step_distinct tz st st' :
  step tz st st' -> opensDistinct st -> opensDistinct st'.
Proof.
  intros Hstep Hst. destruct Hstep.
  - unfold checkDailyReset.
    destruct (getData_distinct now st Hst) as [Hd Hst1].
    destruct (getData now st) as [data st1]. cbn [fst snd] in *.
    case_bool_decide; [|done]. by apply saveData_distinct.
  - by apply trackAppOpen_distinct.
  - unfold addActivity.
    destruct (validateActivityName _ _ name); [|done].
    destruct (getData_distinct now st Hst) as [Hd Hst1].
    destruct (getData now st) as [data st1]. cbn [fst snd] in *.
    destruct (includes _ _); [done|].
    destruct (50 <=? _)%nat; [done|]. cbn [snd]. by apply saveData_distinct.
  - unfold deleteActivity. destruct confirmed; [|done]. cbn [negb].
    destruct (getData_distinct now st Hst) as [Hd Hst1].
    destruct (getData now st) as [data st1]. cbn [fst snd] in *.
    by apply saveData_distinct.
  - unfold toggleActivity.
    destruct (getData_distinct now st Hst) as [Hd Hst1].
    destruct (getData now st) as [data st1]. cbn [fst snd] in *.
    apply saveData_distinct; [|done].
    by destruct (dailyData data !! getTodayDate now).
  - unfold toggleTheme.
    destruct (getData_distinct now st Hst) as [Hd Hst1].
    destruct (getData now st) as [data st1]. cbn [fst snd] in *.
    by apply saveData_distinct.
  - unfold calculateSuccessPercentage.
    destruct (getData_distinct now st Hst) as [Hd Hst1].
    destruct (getData now st) as [data st1]. cbn [fst snd] in *.
    destruct (_ || _); [done|].
    by destruct (fold_left _ _ _) as [[? ?] ?].
Qed.

Lemma reachable_distinct tz st : reachable tz st -> opensDistinct st.
Proof.
  induction 1 as [|st st' _ IH Hstep]; [done|].
  by eapply step_distinct.
Qed.


(** ** The statistics *)

Lemma length_filter_all {A} (P : A -> Prop) `{forall x, Decision (P x)} (l : list A) :
  length (filter P l) = length l <-> Forall P l.
Proof.
  split.
  - induction l as [|x l IH]; [constructor|].
    rewrite filter_cons. pose proof (length_filter P l) as Hle.
    destruct (decide (P x)); cbn [length]; intros Hlen.
    + constructor; [done|]. apply IH. lia.
    + lia.
  - intros HF. by rewrite filter_all.
Qed.

Lemma activities_fold (rec : gmap string bool) (acts : list string) c h :
  fold_left (activityStep rec) acts (c, h)
  = (c + Z.of_nat (length (filter (fun a => rec !! a = Some true) acts)),
     h || bool_decide (Exists (fun a => is_Some (rec !! a)) acts)).
Proof.
  revert c h. induction acts as [|a acts IH]; intros c h.
  - cbn [fold_left filter list_filter length]. f_equal; [lia|].
    rewrite bool_decide_eq_false_2; [by rewrite orb_false_r|].
    by intros H%Exists_nil.
  - cbn [fold_left]. unfold activityStep at 2. rewrite IH. rewrite filter_cons.
    destruct (rec !! a) as [[|]|] eqn:Ha.
    + rewrite bool_decide_eq_true_2 by done.
      rewrite (bool_decide_eq_true_2 (Some true <> None)) by done.
      rewrite decide_True by done. cbn [length orb]. f_equal; [lia|].
      rewrite (bool_decide_eq_true_2 (Exists _ (a :: acts))).
      * by rewrite orb_true_r.
      * apply Exists_cons_hd. by rewrite Ha.
    + rewrite bool_decide_eq_false_2 by done.
      rewrite (bool_decide_eq_true_2 (Some false <> None)) by done.
      rewrite decide_False by done. cbn [orb]. f_equal.
      rewrite (bool_decide_eq_true_2 (Exists _ (a :: acts))).
      * by rewrite orb_true_r.
      * apply Exists_cons_hd. by rewrite Ha.
    + rewrite bool_decide_eq_false_2 by done.
      rewrite (bool_decide_eq_false_2 (None <> None)) by (intros H; by apply H).
      rewrite decide_False by done. f_equal. f_equal.
      apply bool_decide_ext. rewrite Exists_cons, Ha.
      split; [auto|]. intros [[? [=]]|?]; done.
Qed.

Lemma dayPercent_full data date :
  activities data <> [] ->
  Qeq_bool (dayPercent data date) (inject_Z 100) = true <-> allDone data date.
Proof.
  intros Hne. unfold allDone, dayPercent.
  rewrite Qeq_bool_iff.
  set (k := length (filter _ _)). set (n := length (activities data)).
  assert (Hall : k = n <->
            Forall (fun a => recordOf data date !! a = Some true) (activities data))
    by (subst k n; apply length_filter_all).
  rewrite <- Hall. clear Hall.
  assert (Hn : (0 < n)%nat).
  { subst n. destruct (activities data); [done | cbn; lia]. }
  clearbody k n.
  assert (Hq : ~ (inject_Z (Z.of_nat n) == 0)%Q).
  { intros E. change 0%Q with (inject_Z 0) in E.
    apply (proj1 (inject_Z_injective _ _)) in E. lia. }
  split.
  - intros Heq.
    assert (Hk : (inject_Z (Z.of_nat k) == inject_Z (Z.of_nat n))%Q).
    { assert (E : (inject_Z (Z.of_nat k) / inject_Z (Z.of_nat n) == 1)%Q).
      { assert (H100 : (inject_Z 100 == 100)%Q) by reflexivity.
        rewrite H100 in Heq.
        apply (Qmult_inj_r _ _ 100%Q); [done|]. rewrite Heq. reflexivity. }
      rewrite <- (Qmult_div_r (inject_Z (Z.of_nat k)) (inject_Z (Z.of_nat n))) by done.
      rewrite E. ring. }
    apply (proj1 (inject_Z_injective _ _)) in Hk. lia.
  - intros ->. field. done.
Qed.

Lemma tracked_nonempty data date : tracked data date -> activities data <> [].
Proof. unfold tracked. intros H Hnil. rewrite Hnil in H. by apply Exists_nil in H. Qed.

Lemma dateStep_eq data n cd tot date :
  dateStep data (n, cd, tot) date
  = if decide (tracked data date) then
      (n + 1,
       (if decide (allDone data date) then cd + 1 else cd),
       (tot + dayPercent data date)%Q)
    else (n, cd, tot).
Proof.
  unfold dateStep. fold (recordOf data date). rewrite activities_fold.
  cbn [orb Z.add]. fold (tracked data date).
  destruct (decide (tracked data date)) as [Ht | Ht].
  - rewrite bool_decide_eq_true_2 by done. rewrite Z.add_0_l.
    fold (dayPercent data date).
    f_equal. f_equal.
    pose proof (dayPercent_full data date (tracked_nonempty _ _ Ht)) as Hfull.
    destruct (decide (allDone data date)) as [Ha | Ha].
    + by rewrite (proj2 Hfull Ha).
    + destruct (Qeq_bool _ _); [|done]. by destruct Ha; apply Hfull.
  - by rewrite bool_decide_eq_false_2.
Qed.

Lemma dates_fold data dates n cd tot :
  exists tot',
    fold_left (dateStep data) dates (n, cd, tot)
    = (n + Z.of_nat (length (contributing data dates)),
       cd + Z.of_nat (length (filter (fun d => tracked data d /\ allDone data d) dates)),
       tot')
    /\ (tot' == tot + Qsum (dayPercent data <$> contributing data dates))%Q.
Proof.
  revert n cd tot. induction dates as [|d dates IH]; intros n cd tot.
  - exists tot. cbn. split; [by rewrite !Z.add_0_r | ring].
  - cbn [fold_left]. rewrite dateStep_eq. unfold contributing. rewrite !filter_cons.
    destruct (decide (tracked data d)) as [Ht | Ht].
    + destruct (IH (n + 1) (if decide (allDone data d) then cd + 1 else cd)
                   (tot + dayPercent data d)%Q) as (tot' & -> & Htot).
      exists tot'. split.
      * f_equal. f_equal.
        -- unfold contributing. cbn [length]. lia.
        -- destruct (decide (allDone data d)).
           ++ rewrite decide_True by done. cbn [length]. lia.
           ++ rewrite decide_False by (by intros [_ ?]). lia.
      * rewrite Htot. cbn [fmap list_fmap Qsum]. fold (contributing data dates).
        change (list_fmap Z Q (dayPercent data) (contributing data dates))
          with (dayPercent data <$> contributing data dates). ring.
    + destruct (IH n cd tot) as (tot' & -> & Htot).
      exists tot'. split; [|done].
      f_equal. f_equal. rewrite decide_False by (by intros [? _]). done.
Qed.

Lemma mathRound_nearest x : nearestInteger x (mathRound x).
Proof.
  unfold nearestInteger, mathRound.
  pose proof (Qfloor_le (x + (1 # 2))) as Hle.
  pose proof (Qlt_floor (x + (1 # 2))) as Hlt.
  rewrite inject_Z_plus in Hlt. change (inject_Z 1) with 1%Q in Hlt.
  set (n := inject_Z (Qfloor (x + (1 # 2)))) in *. clearbody n.
  apply Qabs_Qle_condition. split; lra.
Qed.

Lemma nearestInteger_compat x y n : (x == y)%Q -> nearestInteger x n -> nearestInteger y n.
Proof. unfold nearestInteger. by intros ->. Qed.

Lemma completed_within_contributing data dates :
  contributing data dates = [] ->
  filter (fun d => tracked data d /\ allDone data d) dates = [].
Proof.
  intros Hc.
  rewrite <- (list_filter_filter_l (fun d => tracked data d /\ allDone data d)
                (tracked data)) by (by intros d [? _]).
  fold (contributing data dates). by rewrite Hc.
Qed.

Lemma contributing_nil_activities data dates :
  activities data = [] -> contributing data dates = [].
Proof.
  intros Hnil. unfold contributing. induction dates as [|d dates IH]; [done|].
  rewrite filter_cons, decide_False; [done|].
  intros Ht. by apply tracked_nonempty in Ht.
Qed.

Lemma success_spec now data dateRange :
  let stats := fst (calculateSuccessPercentage now dateRange (Some data)) in
  let days := contributing data dateRange in
  snd (calculateSuccessPercentage now dateRange (Some data)) = Some data
  /\ completedDays stats
     = Z.of_nat (length (filter (fun d => tracked data d /\ allDone data d) dateRange))
  /\ (days <> [] -> nearestInteger (meanPercent data days) (overall stats))
  /\ (dateRange = [] \/ activities data = [] \/ days = [] -> stats = mkStats 0 0).
Proof.
  intros stats days. subst stats days.
  unfold calculateSuccessPercentage. cbn [getData].
  destruct (dates_fold data dateRange 0 0 0%Q) as (tot & Hfold & Htot).
  rewrite !Z.add_0_l in Hfold.
  destruct ((length (activities data) =? 0)%nat || (length dateRange =? 0)%nat)
    eqn:Hguard.
  - cbn [fst snd completedDays overall].
    assert (Hc : contributing data dateRange = []).
    { apply orb_true_iff in Hguard as [H | H]; apply length_zero_nil in H.
      - by apply contributing_nil_activities.
      - by rewrite H. }
    split; [done|]. split; [by rewrite completed_within_contributing|].
    split; [by intros ?|done].
  - apply orb_false_iff in Hguard as [Hacts Hrange].
    rewrite Hfold. cbn [fst snd completedDays overall].
    split; [done|]. split; [done|]. split.
    + intros Hne.
      destruct (Z.ltb_spec 0 (Z.of_nat (length (contributing data dateRange))))
        as [Hpos | Hzero].
      * eapply nearestInteger_compat; [|apply mathRound_nearest].
        unfold meanPercent. rewrite Htot. by rewrite Qplus_0_l.
      * destruct (contributing data dateRange); [done | cbn in Hzero; lia].
    + intros [Hd | [Ha | Hc]].
      * rewrite Hd in Hrange. done.
      * rewrite Ha in Hacts. done.
      * rewrite completed_within_contributing, Hc by done. done.
Qed.

(** * The claims *)

(** ** The claims on the streaks *)





(** C7. The streak update is idempotent and deterministic: a second run
    with the same [appOpens] and the same today changes nothing, and any two
    runs on the same opens, whatever the cached streaks were, give the same
    pair of streaks. *)
Theorem C7_streak_idempotent (tz now : Z) (data : Data) :
  let once := updateStreak tz now data in
  let twice := updateStreak tz now once in
  twice = once
  /\ (currentStreak twice, bestStreak twice) = (currentStreak once, bestStreak once)
  /\ (forall data', appOpens data' ≡ₚ appOpens data ->
        (currentStreak (updateStreak tz now data'),
         bestStreak (updateStreak tz now data'))
        = (currentStreak once, bestStreak once)).
Proof.
  intros once twice. subst twice once.
  rewrite updateStreak_idempotent. split; [done|]. split; [done|].
  intros data' Hp.
  destruct (updateStreak_streaks_perm tz now data' data Hp) as [-> ->]. done.
Qed.

Lemma C7_streak_idempotent_witness :
  (currentStreak (updateStreak (-300) noonJan3 (set_bestStreak 9 threeDays)),
   bestStreak (updateStreak (-300) noonJan3 (set_bestStreak 9 threeDays)))
  = (currentStreak (updateStreak (-300) noonJan3 threeDays),
     bestStreak (updateStreak (-300) noonJan3 threeDays)).
Proof.
  apply (proj2 (proj2 (C7_streak_idempotent (-300) noonJan3 threeDays))).
  reflexivity.
Defined.

(** ** The claim on the statistics *)



Example stats_gymRead :
  fst (calculateSuccessPercentage noonJan3 [jan 1; jan 2; jan 3] (Some gymRead))
  = mkStats 1 75.
Proof. vm_compute. reflexivity. Qed.

(** ** The claims on the activities *)



Example add_then_listed :
  activities <$> snd (addActivity roomy sameText sameText noonJan3 "  Run "
                        (Some gymRead))
  = Some ["Gym"; "Read"; "Run"]%string.
Proof. vm_compute. reflexivity. Qed.






(** C6, as the code has it. When the user confirms the dialog,
    [deleteActivity] saves the object without the name among the activities
    and without its key in any record, the other keys being as before; for
    a name that is not among the activities this raises no alert and leaves
    the activities as they were, and the whole object when no record holds
    the key; when the user declines nothing is touched; a successful
    [addActivity] followed by a confirmed [deleteActivity] of the added name
    gives back the activities and the keys of the other names. *)
Theorem C6_delete_confirmed (fits : Data -> bool) (now : Z) (name : string)
    (data : Data) :
  (exists data',
     deleteActivity fits true now name (Some data)
     = (Saved data', saveData fits data' (Some data))
     /\ activities data' = filter (fun a => a <> name) (activities data)
     /\ (name ∉ activities data')
     /\ (forall date rec, dailyData data' !! date = Some rec -> rec !! name = None)
     /\ (forall date key, key <> name ->
           recordOf data' date !! key = recordOf data date !! key)
     /\ (name ∉ activities data -> activities data' = activities data)
     /\ (name ∉ activities data ->
         (forall date rec, dailyData data !! date = Some rec -> rec !! name = None) ->
         data' = data))
  /\ deleteActivity fits false now name (Some data) = (Untouched, Some data)
  /\ (forall textContent innerText rawName added st,
        addActivity fits textContent innerText now rawName (Some data)
        = (Saved added, st) ->
        validateActivityName textContent innerText rawName = Some name ->
        exists data',
          deleteActivity fits true now name (Some added)
          = (Saved data', saveData fits data' (Some added))
          /\ activities data' = activities data
          /\ (forall date key, key <> name ->
                recordOf data' date !! key = recordOf data date !! key)).
Proof.
  split; [apply deleteActivity_spec|]. split; [done|].
  intros textContent innerText rawName added st Hadd Hval.
  apply addActivity_Saved in Hadd as (v & Hv & Hout & ->).
  rewrite Hval in Hv. injection Hv as <-.
  destruct (deleteActivity_spec fits now name
              (set_activities (activities data ++ [name]) data))
    as (data' & Heq & Hacts & _ & _ & Hkeys & _).
  exists data'. split; [done|]. split; [|done].
  rewrite Hacts. cbn [activities set_activities].
  rewrite filter_app, filter_all.
  - rewrite filter_cons, decide_False by (by intros H; apply H).
    by rewrite filter_nil, app_nil_r.
  - apply Forall_forall. by intros a Ha ->.
Qed.

Lemma C6_delete_confirmed_witness :
  exists data',
    deleteActivity roomy true noonJan3 "Run" (Some gymRead)
    = (Saved data', saveData roomy data' (Some gymRead))
    /\ data' = gymRead.
Proof.
  destruct (C6_delete_confirmed roomy noonJan3 "Run" gymRead)
    as ((data' & Heq & _ & _ & _ & _ & _ & Hsame) & _).
  exists data'. split; [exact Heq|].
  apply Hsame.
  - by_evaluation.
  - intros date rec.
    destruct (decide (date = jan 1)) as [-> | H1]; [vm_compute; by intros [= <-]|].
    destruct (decide (date = jan 2)) as [-> | H2]; [vm_compute; by intros [= <-]|].
    unfold gymRead. cbn [dailyData set_dailyData].
    rewrite !lookup_insert_ne by done. by rewrite lookup_empty.
Defined.

(** C6, as stated, fails twice: when the user declines the dialog the name
    stays among the activities; and for a name that is not among the
    activities the confirmed deletion is no no-op when a record holds its
    key, the key being deleted. *)
Lemma C6_counterexample :
  ("Gym"%string ∈ activities gymRead
   /\ deleteActivity roomy false noonJan3 "Gym" (Some gymRead)
      = (Untouched, Some gymRead))
  /\ (("Ghost"%string ∉ activities orphaned)
      /\ exists data',
           deleteActivity roomy true noonJan3 "Ghost" (Some orphaned)
           = (Saved data', Some data')
           /\ data' <> orphaned
           /\ dailyData data' !! jan 3 = Some ∅).
Proof.
  split; [split; [by_evaluation | reflexivity]|].
  split; [by_evaluation|].
  eexists. split; [reflexivity|]. split.
  - intros H. apply (f_equal (fun d => dailyData d !! jan 3)) in H.
    vm_compute in H. done.
  - vm_compute. reflexivity.
Qed.

(** ** The claim on the log of app opens *)

(** C9. In every store the script can reach no day is logged twice, and
    recording an app open on a day that is already logged touches nothing:
    no alert, no write, the stored object as it was. *)
Theorem C9_opens_distinct (tz : Z) :
  (forall st data, reachable tz st -> st = Some data -> NoDup (appOpens data))
  /\ (forall fits now data,
        getTodayDate now ∈ appOpens data ->
        trackAppOpen tz fits now (Some data) = (Untouched, Some data)).
Proof.
  split.
  - intros st data Hreach ->. by apply reachable_distinct in Hreach.
  - intros fits now data. apply trackAppOpen_present.
Qed.

Lemma C9_opens_distinct_witness :
  trackAppOpen 330 roomy noonJan3 (Some threeDays) = (Untouched, Some threeDays)
  /\ NoDup (appOpens (set_lastOpenDate (jan 3)
              (updateStreak 330 noonJan3
                 (set_appOpens [jan 3] (mkData [] ∅ (jan 3) light [] 0 0 (jan 3)))))).
Proof.
  split.
  - apply (C9_opens_distinct 330). by_evaluation.
  - apply (proj1 (C9_opens_distinct 330)
             (snd (trackAppOpen 330 roomy noonJan3 None))).
    + apply (reachable_step 330 None); [apply reachable_init|].
      apply (step_open 330 roomy noonJan3 None).
    + vm_compute. reflexivity.
Defined.

(** ** The claim on the date keys *)

(** C8. The keys are the dates of UTC, not of the local clock. Five and a
    half hours east of UTC, at 01:30 of 16 January 2024 on the local clock,
    today's key is 2024-01-15, and the monthly range runs from 2023-12-31
    to 2024-01-30, while the calendar of the same script builds the keys
    2024-01-01 to 2024-01-31 from the local year, month and day. *)
Theorem C8_keys_follow_utc :
  let tz := 330 in
  let now := eveningJan15 in
  civilString (mkCivil (getFullYear tz now) (getMonth tz now + 1) (getDate tz now))
  = "2024-01-16"%string
  /\ isoDateString (getTodayDate now) = "2024-01-15"%string
  /\ getMonthDates tz now = seqZ (days_from_civil 2023 12 31) 31
  /\ (isoDateString <$> head (getMonthDates tz now)) = Some "2023-12-31"%string
  /\ (isoDateString <$> last (getMonthDates tz now)) = Some "2024-01-30"%string
  /\ calendarKeys tz now = isoDateString <$> seqZ (jan 1) 31
  /\ head (calendarKeys tz now) = Some "2024-01-01"%string
  /\ last (calendarKeys tz now) = Some "2024-01-31"%string.
Proof. vm_compute. repeat split; reflexivity. Qed.

(** * Further properties

    The figures of the day, of the calendar and of the statistics are
    computed here on exact rationals and rounded half up. The script
    computes them on doubles, whose quotient times 100 can fall just below
    a half the exact value reaches; the statements below do not depend on
    the direction in which such a half is rounded.

    As everywhere in this development a record of a day is the finite map
    of its own keys: an activity is not named after a property that every
    object inherits ([constructor], [toString] and the like). *)

(** ** Calendar dates to day numbers and back *)








(** ** The ranges of the week and of the month *)






(** X15. The weekly range is, in every time zone, the seven consecutive
    day keys that end at today's key. *)
Theorem X15_week_range (tz now : Z) :
  getWeekDates tz now = seqZ (getTodayDate now - 6) 7
  /\ length (getWeekDates tz now) = 7%nat
  /\ last (getWeekDates tz now) = Some (getTodayDate now).
Proof.
  rewrite getWeekDates_keys. cbn [fmap list_fmap].
  split; [|split; [done | cbn [last]; by rewrite Z.sub_0_r]].
  do 7 (rewrite seqZ_cons by lia). rewrite seqZ_nil by lia.
  repeat f_equal; lia.
Qed.





(** ** The steps, by their effect on the stored object *)

Lemma getData_cases now st :
  (st = None /\ getData now st = (defaults now, Some (defaults now)))
  \/ (exists d, st = Some d /\ getData now st = (d, Some d)).
Proof. destruct st as [d|]; [right; by exists d | left; done]. Qed.

Lemma saveData_cases fits d st : saveData fits d st = Some d \/ saveData fits d st = st.
Proof. unfold saveData. destruct (fits d); auto. Qed.

(** A step leaves the store as it was, or creates the default object, or
    saves one change of the object it read. *)
Lemma step_effect tz st st' :
  step tz st st' ->
  st' = st
  \/ (exists now, st = None /\ st' = Some (defaults now))
  \/ (exists now d d', fst (getData now st) = d /\ st' = Some d' /\ effect tz d d').
Proof.
  assert (Hread : forall now, snd (getData now st) = st
            \/ (st = None /\ snd (getData now st) = Some (defaults now))).
  { intros now. destruct st; [left | right]; done. }
  assert (Hsave : forall fits now d',
            effect tz (fst (getData now st)) d' ->
            let r := saveData fits d' (snd (getData now st)) in
            r = st \/ (exists now, st = None /\ r = Some (defaults now))
            \/ (exists now d d', fst (getData now st) = d /\ r = Some d' /\ effect tz d d')).
  { intros fits now d' He r. subst r.
    destruct (saveData_cases fits d' (snd (getData now st))) as [-> | ->].
    - right; right. by exists now, (fst (getData now st)), d'.
    - destruct (Hread now) as [-> | [-> ->]]; [by left|].
      right; left. by exists now. }
  assert (Hkeep : forall now,
            let r := snd (getData now st) in
            r = st \/ (exists now, st = None /\ r = Some (defaults now))
            \/ (exists now d d', fst (getData now st) = d /\ r = Some d' /\ effect tz d d')).
  { intros now r. subst r. destruct (Hread now) as [-> | [-> ->]]; [by left|].
    right; left. by exists now. }
  intros Hstep. destruct Hstep.
  - unfold checkDailyReset.
    specialize (Hsave fits now). specialize (Hkeep now).
    destruct (getData now st) as [d st1]. cbn [fst snd] in *.
    case_bool_decide; [|done]. apply (Hsave (set_lastResetDate _ d)). constructor.
  - unfold trackAppOpen.
    specialize (Hsave fits now). specialize (Hkeep now).
    destruct (getData now st) as [d st1]. cbn [fst snd] in *.
    destruct (includes _ _) eqn:Hinc; cbn [negb snd]; [done|].
    apply includes_false in Hinc. apply (Hsave (opened tz now d)).
    by apply effect_open.
  - unfold addActivity.
    destruct (validateActivityName _ _ name) as [v|] eqn:Hv; [|by left].
    specialize (Hsave fits now). specialize (Hkeep now).
    destruct (getData now st) as [d st1]. cbn [fst snd] in *.
    destruct (includes _ _) eqn:Hinc; [done|]. apply includes_false in Hinc.
    destruct (Nat.leb_spec 50 (length (activities d))); [done|]. cbn [snd].
    apply (Hsave (set_activities (activities d ++ [v]) d)). by eapply effect_add.
  - unfold deleteActivity. destruct confirmed; [|by left]. cbn [negb].
    specialize (Hsave fits now). specialize (Hkeep now).
    destruct (getData now st) as [d st1]. cbn [fst snd] in *.
    cbn [snd]. apply (Hsave (deleted name d)). apply effect_delete.
  - pose proof (Hsave fits now) as Hs. specialize (Hkeep now).
    destruct (getData_cases now st) as [[-> Hg] | (d & -> & Hg)].
    + change (toggleActivity fits now name None)
        with (toggleActivity fits now name (Some (defaults now))).
      rewrite toggleActivity_Some. cbn [snd]. fold (toggled now name (defaults now)).
      destruct (saveData_cases fits (toggled now name (defaults now))
                  (Some (defaults now))) as [-> | ->].
      * right; right. exists now, (defaults now), (toggled now name (defaults now)).
        split; [done|]. split; [done | constructor].
      * right; left. by exists now.
    + rewrite toggleActivity_Some. cbn [snd]. rewrite Hg in Hs. cbn [fst snd] in Hs.
      apply (Hs (toggled now name d)). apply effect_toggle.
  - unfold toggleTheme.
    specialize (Hsave fits now). specialize (Hkeep now).
    destruct (getData now st) as [d st1]. cbn [fst snd] in *.
    cbn [snd]. apply (Hsave (set_theme _ d)). constructor.
  - unfold calculateSuccessPercentage.
    specialize (Hkeep now).
    destruct (getData now st) as [d st1]. cbn [fst snd] in *.
    destruct (_ || _); [done|].
    by destruct (fold_left _ _ _) as [[? ?] ?].
Qed.

(** Induction over the reachable stores: a property of the default object
    that every saved change keeps holds of every stored object. *)
Lemma reachable_data_ind tz (I : Data -> Prop) :
  (forall now, I (defaults now)) ->
  (forall d d', effect tz d d' -> I d -> I d') ->
  forall st d, reachable tz st -> st = Some d -> I d.
Proof.
  intros Hinit Hkeep st d Hreach. revert d.
  induction Hreach as [|st st' Hreach IH Hstep]; intros d Hd; [done|].
  apply step_effect in Hstep as [-> | [(now & -> & ->) | (now & d0 & d' & Hg & -> & He)]].
  - by apply IH.
  - injection Hd as <-. apply Hinit.
  - injection Hd as <-. apply (Hkeep d0); [done|].
    destruct st as [d1|]; cbn in Hg; subst d0; [by apply IH | apply Hinit].
Qed.

(** ** What the streak update leaves alone *)

Lemma updateStreak_fields tz now d :
  activities (updateStreak tz now d) = activities d
  /\ dailyData (updateStreak tz now d) = dailyData d
  /\ lastResetDate (updateStreak tz now d) = lastResetDate d
  /\ theme (updateStreak tz now d) = theme d
  /\ lastOpenDate (updateStreak tz now d) = lastOpenDate d.
Proof. unfold updateStreak. by destruct (length (appOpens d) =? 0)%nat. Qed.


Lemma appOpens_opened tz now d :
  appOpens (opened tz now d) = merge_sort Z.le (appOpens d ++ [getTodayDate now]).
Proof.
  unfold opened, updateStreak. cbn [appOpens set_appOpens].
  destruct (length (appOpens d ++ [getTodayDate now]) =? 0)%nat eqn:E; [|done].
  apply length_zero_nil in E. by destruct (appOpens d).
Qed.

(** ** Invariants of the stored object *)

Lemma effect_activities tz d d' :
  effect tz d d' -> activitiesWellFormed d -> activitiesWellFormed d'.
Proof.
  intros He (Hnd & Hlen0 & Hall).
  destruct He as [today d | now d Hfresh | tc it raw v d Hv Hout Hlen | name d | now name d | th d];
    unfold activitiesWellFormed.
  - done.
  - unfold opened. cbn [activities set_lastOpenDate].
    destruct (updateStreak_fields tz now
                (set_appOpens (appOpens d ++ [getTodayDate now]) d)) as [-> _].
    done.
  - cbn [activities set_activities]. split; [|split].
    + apply NoDup_app. split; [done|]. split; [|apply NoDup_singleton].
      intros x Hx Hx'. apply list_elem_of_singleton in Hx'. by subst.
    + rewrite length_app. cbn. lia.
    + apply Forall_app. split; [done|]. constructor; [|constructor].
      by apply validate_Some in Hv as (_ & _ & ?).
  - cbn [activities deleted set_dailyData set_activities]. split; [|split].
    + by apply NoDup_filter.
    + pose proof (length_filter (fun a => a <> name) (activities d)). lia.
    + rewrite Forall_forall in *. intros a Ha.
      apply list_elem_of_filter in Ha as [_ Ha]. auto.
  - done.
  - done.
Qed.

Lemma strictly_ascending_NoDup (l : list Z) : StronglySorted Z.lt l -> NoDup l.
Proof.
  induction 1 as [|x l Hs IH Hall]; constructor; [|done].
  intros Hx. rewrite Forall_forall in Hall. specialize (Hall x Hx). lia.
Qed.

Lemma effect_ascending tz d d' :
  effect tz d d' -> StronglySorted Z.lt (appOpens d) -> StronglySorted Z.lt (appOpens d').
Proof.
  intros He Hs.
  destruct He as [today d | now d Hfresh | tc it raw v d Hv Hout Hlen | name d | now name d | th d]; try done.
  rewrite appOpens_opened. apply strictly_sorted; [apply Sorted_sort|].
  rewrite merge_sort_Permutation. apply NoDup_app.
  split; [by apply strictly_ascending_NoDup|]. split; [|apply NoDup_singleton].
  intros x Hx Hx'. apply list_elem_of_singleton in Hx'. by subst.
Qed.

Lemma longestRunFrom_bounds prev run best rest :
  0 <= best -> 1 <= run ->
  1 <= longestRunFrom prev run best rest
       <= Z.max best (run + Z.of_nat (length rest)).
Proof.
  revert prev run best. induction rest as [|x rest IH]; intros prev run best Hb Hr.
  - cbn. lia.
  - cbn [longestRunFrom length]. destruct (x - prev =? 1).
    + specialize (IH x (run + 1) best Hb ltac:(lia)). lia.
    + specialize (IH x 1 (Z.max best run) ltac:(lia) ltac:(lia)). lia.
Qed.

Lemma longestRun_bounds (l : list Z) : 0 <= longestRun l <= Z.of_nat (length l).
Proof.
  destruct l as [|x rest]; [done|]. cbn [longestRun length].
  pose proof (longestRunFrom_bounds x 1 0 rest ltac:(lia) ltac:(lia)). lia.
Qed.

(** After the update: 0 <= current <= best <= number of opens. *)
Lemma updateStreak_bounds tz now d :
  0 <= currentStreak (updateStreak tz now d)
    <= bestStreak (updateStreak tz now d)
  /\ bestStreak (updateStreak tz now d) <= Z.of_nat (length (appOpens d)).
Proof.
  destruct (decide (appOpens d = [])) as [Hnil | Hne].
  { destruct (streaks_of_empty tz now d Hnil) as [-> ->]. lia. }
  assert (Hcur : 0 <= currentStreak (updateStreak tz now d)
                   <= Z.of_nat (length (appOpens d))).
  { destruct (current_streak_spec tz now d) as (Htoday & Hyest & Hnone).
    cbv zeta in *.
    assert (Hrun : forall day, runEndingAt (appOpens d) day
                                 (currentStreak (updateStreak tz now d)) ->
              0 <= currentStreak (updateStreak tz now d)
                <= Z.of_nat (length (appOpens d))).
    { intros day (H0 & Hin & _). split; [done|].
      by apply (run_within_length (appOpens d) day). }
    destruct (decide (getTodayDate now ∈ appOpens d)) as [Hin | Hout]; [eauto|].
    destruct (decide (getTodayDate now - 1 ∈ appOpens d)) as [Hin' | Hout']; [eauto|].
    rewrite Hnone by done. lia. }
  rewrite (best_streak_spec tz now d (merge_sort Z.le (appOpens d)) Hne
             (Sorted_sort _) (merge_sort_Permutation _ _)).
  pose proof (longestRun_bounds (merge_sort Z.le (appOpens d))) as Hl.
  rewrite length_sort in Hl. lia.
Qed.








Lemma firstDay_reachable : reachable 330 firstDay.
Proof.
  unfold firstDay.
  eapply reachable_step; [|apply step_add].
  eapply reachable_step; [apply reachable_init | apply step_open].
Qed.

Lemma secondDay_reachable : reachable 330 secondDay.
Proof. eapply reachable_step; [apply firstDay_reachable | apply step_open]. Qed.


Lemma secondDay_data : secondDay = Some secondDayData.
Proof. vm_compute. reflexivity. Qed.

(** ** Existence and growth of runs *)




Lemma runEndingAt_later (opens : list Z) today d k :
  d < today -> runEndingAt opens d k -> runEndingAt (opens ++ [today]) d k.
Proof.
  intros Hlt (Hk & Hin & Hout). split; [done|]. split.
  - intros i Hi. apply elem_of_app. left. auto.
  - intros Hmem. apply elem_of_app in Hmem as [Hmem | Hmem]; [done|].
    apply list_elem_of_singleton in Hmem. lia.
Qed.

(** ** Recording a new day *)

Lemma trackAppOpen_fresh tz fits now d :
  getTodayDate now ∉ appOpens d ->
  trackAppOpen tz fits now (Some d)
  = (Saved (opened tz now d), saveData fits (opened tz now d) (Some d)).
Proof.
  intros Hout. unfold trackAppOpen. cbn [getData].
  by rewrite (proj2 (includes_false _ _) Hout).
Qed.

Lemma currentStreak_opened tz now d k :
  runEndingAt (appOpens d) (getTodayDate now - 1) k ->
  currentStreak (opened tz now d) = 1 + k.
Proof.
  intros Hrun. unfold opened. cbn [currentStreak set_lastOpenDate].
  set (d1 := set_appOpens (appOpens d ++ [getTodayDate now]) d).
  destruct (current_streak_spec tz now d1) as (Htoday & _).
  cbv zeta in Htoday. cbn [appOpens d1 set_appOpens] in Htoday.
  assert (Hin : getTodayDate now ∈ appOpens d ++ [getTodayDate now]).
  { apply elem_of_app. right. left. }
  apply (runEndingAt_unique _ _ _ _ (Htoday Hin)).
  apply runEndingAt_extend; [done|]. apply runEndingAt_later; [lia | done].
Qed.

(** * Further properties *)

(** ** Invariants of the stores the script can reach *)

(** X1. In every store the script can reach the activities are pairwise
    distinct, at most 50, and each name has between 1 and 100 characters. *)
Theorem X1_activities_well_formed (tz : Z) (st : option Data) (d : Data) :
  reachable tz st -> st = Some d ->
  NoDup (activities d)
  /\ (length (activities d) <= 50)%nat
  /\ Forall (fun a => (1 <= String.length a <= 100)%nat) (activities d).
Proof.
  apply (reachable_data_ind tz activitiesWellFormed).
  - intros now. split; [apply NoDup_nil_2|]. split; [cbn; lia | constructor].
  - apply effect_activities.
Qed.

Lemma X1_activities_well_formed_witness :
  NoDup (activities secondDayData)
  /\ (length (activities secondDayData) <= 50)%nat
  /\ Forall (fun a => (1 <= String.length a <= 100)%nat) (activities secondDayData).
Proof.
  exact (X1_activities_well_formed 330 secondDay secondDayData
           secondDay_reachable secondDay_data).
Defined.

(** X2. In every store the script can reach the logged days are in strictly
    ascending order. *)
Theorem X2_opens_ascending (tz : Z) (st : option Data) (d : Data) :
  reachable tz st -> st = Some d -> StronglySorted Z.lt (appOpens d).
Proof.
  apply (reachable_data_ind tz (fun d => StronglySorted Z.lt (appOpens d))).
  - intros now. constructor.
  - apply effect_ascending.
Qed.

Lemma X2_opens_ascending_witness : StronglySorted Z.lt (appOpens secondDayData).
Proof.
  exact (X2_opens_ascending 330 secondDay secondDayData
           secondDay_reachable secondDay_data).
Defined.









(** ** Recording a new day *)





(** ** Counting the completed activities *)

Lemma countCompleted_from (rec : gmap string bool) (acts : list string) c :
  fold_left
    (fun completed activity =>
       if bool_decide (rec !! activity = Some true)
       then completed + 1 else completed) acts c
  = c + Z.of_nat (doneCount rec acts).
Proof.
  revert c. induction acts as [|a acts IH]; intros c; [cbn; lia|].
  cbn [fold_left]. rewrite IH. unfold doneCount. rewrite filter_cons.
  case_bool_decide.
  - rewrite decide_True by done. cbn [length]. lia.
  - by rewrite decide_False by done.
Qed.

Lemma countCompleted_doneCount rec acts :
  countCompleted rec acts = Z.of_nat (doneCount rec acts).
Proof. unfold countCompleted. by rewrite countCompleted_from. Qed.

Lemma doneCount_le rec acts : (doneCount rec acts <= length acts)%nat.
Proof. apply length_filter. Qed.


Lemma percentOf_floor k n :
  0 < n -> percentOf k n = (200 * k + n) / (2 * n).
Proof.
  intros Hn. unfold percentOf, mathRound.
  assert (E : (inject_Z k / inject_Z n * inject_Z 100 + (1 # 2)
               == (200 * k + n) # (Z.to_pos (2 * n)))%Q).
  { rewrite (Qmake_Qdiv (200 * k + n)). rewrite Z2Pos.id by lia.
    rewrite inject_Z_plus, !inject_Z_mult.
    assert (Hq : ~ (inject_Z n == 0)%Q).
    { intros E. change 0%Q with (inject_Z 0) in E.
      apply (proj1 (inject_Z_injective _ _)) in E. lia. }
    change (inject_Z 100) with 100%Q. change (inject_Z 200) with 200%Q.
    change (inject_Z 2) with 2%Q. field. done. }
  rewrite (Qfloor_comp _ _ E). unfold Qfloor.
  rewrite Z2Pos.id by lia. done.
Qed.



Lemma percentOf_zero n : 0 < n -> percentOf 0 n = 0.
Proof. intros Hn. rewrite percentOf_floor by done. apply Z.div_small. lia. Qed.

(** ** Reading the day *)


Lemma calculateProgress_Some now d :
  calculateProgress now (Some d)
  = (if (length (activities d) =? 0)%nat then 0
     else percentOf (Z.of_nat (doneCount (recordOf d (getTodayDate now)) (activities d)))
            (Z.of_nat (length (activities d))),
     Some d).
Proof.
  unfold calculateProgress. cbn [getData].
  destruct (length (activities d) =? 0)%nat; [done|].
  by rewrite countCompleted_doneCount.
Qed.

Lemma showDayDetails_Some now date d :
  showDayDetails now date (Some d)
  = (mkDayDetails
       (Z.of_nat (doneCount (recordOf d date) (activities d)))
       (Z.of_nat (length (activities d)))
       (if (length (activities d) =? 0)%nat then 0
        else percentOf (Z.of_nat (doneCount (recordOf d date) (activities d)))
               (Z.of_nat (length (activities d))))
       (statusLine (recordOf d date) <$> activities d),
     Some d).
Proof.
  unfold showDayDetails. cbn [getData]. fold (recordOf d date).
  rewrite countCompleted_doneCount. f_equal. f_equal.
  destruct (activities d); [done|]. cbn [length Nat.eqb].
  by destruct (Z.ltb_spec 0 (Z.of_nat (S (length l)))); [|lia].
Qed.

Lemma filter_none {A} (P : A -> Prop) `{forall x, Decision (P x)} (l : list A) :
  Forall (fun x => ~ P x) l -> filter P l = [].
Proof.
  induction 1 as [|x l Hx _ IH]; [done|].
  by rewrite filter_cons, decide_False, IH.
Qed.

Lemma doneCount_untracked d date :
  ~ tracked d date -> doneCount (recordOf d date) (activities d) = 0%nat.
Proof.
  intros Hnt. unfold doneCount.
  rewrite filter_none; [done|].
  apply Forall_forall. intros a Ha Htrue. apply Hnt.
  unfold tracked. apply Exists_exists. exists a. split; [done|]. by rewrite Htrue.
Qed.










Lemma dayPercent_percentOf d date :
  mathRound (dayPercent d date)
  = percentOf (Z.of_nat (doneCount (recordOf d date) (activities d)))
      (Z.of_nat (length (activities d))).
Proof. done. Qed.

Lemma overall_single now date d :
  overall (fst (calculateSuccessPercentage now [date] (Some d)))
  = if decide (tracked d date) then mathRound (dayPercent d date) else 0.
Proof.
  unfold calculateSuccessPercentage. cbn [getData].
  destruct (decide (tracked d date)) as [Ht | Hnt].
  - pose proof (tracked_nonempty d date Ht) as Hne.
    destruct (activities d) as [|a l] eqn:Hacts; [done|]. cbn [length Nat.eqb orb].
    cbn [fold_left]. rewrite dateStep_eq, decide_True by done.
    cbn [fst overall]. unfold mathRound. apply Qfloor_comp.
    change (inject_Z (0 + 1)) with 1%Q. field.
  - destruct ((length (activities d) =? 0)%nat || (length [date] =? 0)%nat); [done|].
    cbn [fold_left]. by rewrite dateStep_eq, decide_False by done.
Qed.

Lemma statusLine_fst rec a :
  fst (statusLine rec a) = StatusCompleted <-> rec !! a = Some true.
Proof.
  unfold statusLine. cbn [fst]. destruct (rec !! a) as [[|]|].
  - by rewrite bool_decide_eq_true_2.
  - rewrite bool_decide_eq_false_2 by done.
    by rewrite (bool_decide_eq_true_2 (Some false <> None)).
  - rewrite bool_decide_eq_false_2 by done.
    by rewrite (bool_decide_eq_false_2 (None <> None)) by naive_solver.
Qed.

Lemma statusLine_completed rec acts :
  length (filter (fun line => fst line = StatusCompleted) (statusLine rec <$> acts))
  = doneCount rec acts.
Proof.
  unfold doneCount. induction acts as [|a acts IH]; [done|].
  cbn [fmap list_fmap]. rewrite !filter_cons.
  destruct (decide (rec !! a = Some true)) as [Ha | Ha].
  - rewrite decide_True by (by apply statusLine_fst). cbn [length]. by rewrite <- IH.
  - rewrite decide_False by (by rewrite statusLine_fst). apply IH.
Qed.

(** X10. The percentage of the day's details is, for every day, the overall
    of the success aggregation over the range of that one day, and for
    today it is the progress; the completed count of the details is the
    number of lines shown as completed and is at most the total count. *)
Theorem X10_day_figures_agree (now date : Z) (d : Data) :
  let details := fst (showDayDetails now date (Some d)) in
  completionPercentage details
  = overall (fst (calculateSuccessPercentage now [date] (Some d)))
  /\ fst (calculateProgress now (Some d))
     = completionPercentage (fst (showDayDetails now (getTodayDate now) (Some d)))
  /\ 0 <= completedCount details <= totalCount details
  /\ completedCount details
     = Z.of_nat (length (filter (fun line => fst line = StatusCompleted)
                           (modalBody details))).
Proof.
  intros details. subst details.
  rewrite !showDayDetails_Some, calculateProgress_Some, overall_single.
  cbn [fst completionPercentage completedCount totalCount modalBody].
  pose proof (doneCount_le (recordOf d date) (activities d)) as Hle.
  split; [|split; [done|split; [lia|by rewrite statusLine_completed]]].
  destruct (decide (tracked d date)) as [Ht | Hnt].
  - pose proof (tracked_nonempty d date Ht) as Hne.
    destruct (Nat.eqb_spec (length (activities d)) 0) as [Hz | _].
    + by apply nil_length_inv in Hz.
    + by rewrite dayPercent_percentOf.
  - destruct (Nat.eqb_spec (length (activities d)) 0) as [Hz | Hnz]; [done|].
    rewrite doneCount_untracked by done. apply percentOf_zero. lia.
Qed.

(** ** The calendar cells *)


Lemma ratio_percent k n :
  0 < n ->
  (inject_Z k / inject_Z n * inject_Z 100 == (100 * k) # Z.to_pos n)%Q.
Proof.
  intros Hn. rewrite (Qmake_Qdiv (100 * k)). rewrite Z2Pos.id by lia.
  rewrite inject_Z_mult.
  assert (Hq : ~ (inject_Z n == 0)%Q).
  { intros E. change 0%Q with (inject_Z 0) in E.
    apply (proj1 (inject_Z_injective _ _)) in E. lia. }
  change (inject_Z 100) with 100%Q. field. done.
Qed.










(** ** Bounds of the statistics *)

Lemma dayPercent_range d date :
  activities d <> [] -> (0 <= dayPercent d date <= inject_Z 100)%Q.
Proof.
  intros Hne. unfold dayPercent. fold (doneCount (recordOf d date) (activities d)).
  pose proof (doneCount_le (recordOf d date) (activities d)) as Hle.
  assert (Hn : 0 < Z.of_nat (length (activities d))).
  { destruct (activities d); [done | cbn; lia]. }
  rewrite (ratio_percent _ _ Hn). unfold Qle, inject_Z. cbn [Qnum Qden].
  rewrite Z2Pos.id by lia. lia.
Qed.

Lemma Qsum_range (l : list Q) :
  Forall (fun x => (0 <= x <= inject_Z 100)%Q) l ->
  (0 <= Qsum l <= inject_Z 100 * inject_Z (Z.of_nat (length l)))%Q.
Proof.
  induction 1 as [|x l [Hx0 Hx1] _ [IH0 IH1]].
  - cbn [Qsum length]. change (inject_Z (Z.of_nat 0)) with 0%Q.
    change (inject_Z 100) with 100%Q. split; lra.
  - cbn [Qsum length]. rewrite Nat2Z.inj_succ, <- Z.add_1_r, inject_Z_plus.
    change (inject_Z 1) with 1%Q. change (inject_Z 100) with 100%Q in *.
    split; lra.
Qed.

Lemma meanPercent_range d dates :
  dates <> [] -> Forall (tracked d) dates ->
  (0 <= meanPercent d dates <= inject_Z 100)%Q.
Proof.
  intros Hne Hall. unfold meanPercent.
  assert (Hlen : (0 < inject_Z (Z.of_nat (length dates)))%Q).
  { change 0%Q with (inject_Z 0). rewrite <- Zlt_Qlt.
    destruct dates; [done | cbn; lia]. }
  destruct (Qsum_range (dayPercent d <$> dates)) as [H0 H1].
  { apply Forall_fmap. eapply Forall_impl; [exact Hall|].
    intros date Ht. apply dayPercent_range. by eapply tracked_nonempty. }
  rewrite length_fmap in H1. split.
  - apply Qle_shift_div_l; [done|]. lra.
  - apply Qle_shift_div_r; [done|]. lra.
Qed.

Lemma nearest_in_range x n :
  (0 <= x <= inject_Z 100)%Q -> nearestInteger x n -> 0 <= n <= 100.
Proof.
  unfold nearestInteger. intros [H0 H1] Hn.
  apply Qabs_Qle_condition in Hn as [Hlo Hhi].
  change (inject_Z 100) with 100%Q in H1. split.
  - destruct (decide (0 <= n)) as [|Hneg]; [done|]. exfalso.
    assert (Hq : (inject_Z n <= inject_Z (-1))%Q) by (rewrite <- Zle_Qle; lia).
    change (inject_Z (-1)) with (-1)%Q in Hq. lra.
  - destruct (decide (n <= 100)) as [|Hbig]; [done|]. exfalso.
    assert (Hq : (inject_Z 101 <= inject_Z n)%Q) by (rewrite <- Zle_Qle; lia).
    change (inject_Z 101) with 101%Q in Hq. lra.
Qed.

(** X12. The success aggregation stays within its bounds: the completed
    days are at most the days that contribute, which are at most the days of
    the range, and the overall is between 0 and 100. *)
Theorem X12_success_bounds (now : Z) (d : Data) (dateRange : list Z) :
  let stats := fst (calculateSuccessPercentage now dateRange (Some d)) in
  0 <= completedDays stats <= Z.of_nat (length (contributing d dateRange))
  /\ (length (contributing d dateRange) <= length dateRange)%nat
  /\ 0 <= overall stats <= 100.
Proof.
  intros stats. subst stats.
  destruct (success_spec now d dateRange) as (_ & Hdays & Hmean & Hzero).
  cbv zeta in *. split; [|split].
  - rewrite Hdays.
    rewrite <- (list_filter_filter_l (fun date => tracked d date /\ allDone d date)
                  (tracked d)) by tauto.
    fold (contributing d dateRange).
    pose proof (length_filter (fun date => tracked d date /\ allDone d date)
                  (contributing d dateRange)). lia.
  - apply length_filter.
  - destruct (decide (contributing d dateRange = [])) as [Hnil | Hne].
    + rewrite Hzero by auto. cbn. lia.
    + apply (nearest_in_range (meanPercent d (contributing d dateRange))); [|auto].
      apply meanPercent_range; [done|].
      apply Forall_forall. intros date Hd.
      by apply list_elem_of_filter in Hd as [? _].
Qed.

(** ** The daily reminder *)

(** X13. [scheduleDailyReminder] shows at most one notification a day as
    long as its marks are written: unless the write of the mark is refused,
    today is marked after the call, whether or not a notification could be
    shown; earlier marks are kept; once today is marked, a further call on
    the same day shows nothing and changes nothing; a notification is shown
    only with the permission granted, on a day not yet marked. *)
Theorem X13_reminder_once_a_day (granted takesMark : bool) (now : Z)
    (sent : gset Z) (st : option Data) :
  let r := scheduleDailyReminder granted takesMark now sent st in
  (thrown r = false -> getTodayDate now ∈ marks r)
  /\ sent ⊆ marks r
  /\ (getTodayDate now ∈ marks r ->
      forall granted' takesMark' now', getTodayDate now' = getTodayDate now ->
        scheduleDailyReminder granted' takesMark' now' (marks r) (stored r)
        = mkScheduled None (marks r) (stored r) false)
  /\ (shown r <> None -> granted = true /\ getTodayDate now ∉ sent)
  /\ (granted = false -> shown r = None /\ stored r = st).
Proof.
  intros r.
  assert (Hagain : forall (s : gset Z) s', getTodayDate now ∈ s ->
            forall granted' takesMark' now', getTodayDate now' = getTodayDate now ->
              scheduleDailyReminder granted' takesMark' now' s s'
              = mkScheduled None s s' false).
  { intros s s' Hin granted' takesMark' now' Hday. unfold scheduleDailyReminder.
    rewrite Hday. by rewrite bool_decide_eq_false_2 by tauto. }
  assert (Hsend : forall n st', sendDailyReminderNotification granted now st = (n, st') ->
            (n <> None -> granted = true)
            /\ (granted = false -> n = None /\ st' = st)).
  { intros n st' Heq. destruct granted; [done|]. by injection Heq as <- <-. }
  subst r. unfold scheduleDailyReminder. case_bool_decide as Hday.
  - destruct (sendDailyReminderNotification granted now st) as [n st'] eqn:Heq.
    destruct takesMark; cbn [thrown marks shown stored].
    + assert (Hin : getTodayDate now ∈ ({[getTodayDate now]} ∪ sent : gset Z))
        by (apply elem_of_union; left; by apply elem_of_singleton).
      split; [done|]. split; [intros x Hx; apply elem_of_union; by right|].
      split; [intros _; exact (Hagain _ _ Hin)|]. split.
      * intros Hn. split; [by apply (Hsend n st') | done].
      * by apply (Hsend n st').
    + split; [done|]. split; [done|].
      split; [intros Hin; exact (Hagain _ _ Hin)|]. split.
      * intros Hn. split; [by apply (Hsend n st') | done].
      * by apply (Hsend n st').
  - cbn [thrown marks shown stored].
    split; [done|]. split; [done|]. split; [intros _; exact (Hagain _ _ Hday)|].
    split; [done|]. done.
Qed.

Lemma X13_reminder_once_a_day_witness :
  scheduleDailyReminder true true (noonJan3 + 3600000)
    (marks (scheduleDailyReminder true true noonJan3 ∅ (Some gymRead)))
    (stored (scheduleDailyReminder true true noonJan3 ∅ (Some gymRead)))
  = mkScheduled None
      (marks (scheduleDailyReminder true true noonJan3 ∅ (Some gymRead)))
      (stored (scheduleDailyReminder true true noonJan3 ∅ (Some gymRead))) false.
Proof.
  destruct (X13_reminder_once_a_day true true noonJan3 ∅ (Some gymRead))
    as (Hmark & _ & Hagain & _).
  apply Hagain; [apply Hmark; reflexivity | reflexivity].
Defined.



(** ** Writes *)

(** X17. Once a name is added and stored, adding again a text that
    validates to the same name is refused as a duplicate and leaves the
    store as it is. *)
Theorem X17_add_again_is_duplicate (fits : Data -> bool)
    (textContent innerText : string -> string) (now now' : Z)
    (rawName rawAgain : string) (d added : Data) :
  addActivity fits textContent innerText now rawName (Some d)
  = (Saved added, Some added) ->
  validateActivityName textContent innerText rawAgain
  = validateActivityName textContent innerText rawName ->
  addActivity fits textContent innerText now' rawAgain (Some added)
  = (Alerted DuplicateName, Some added).
Proof.
  intros Hadd Hsame.
  apply addActivity_Saved in Hadd as (v & Hv & _ & ->).
  apply (addActivity_duplicate fits textContent innerText now' rawAgain v).
  - by rewrite Hsame.
  - cbn [activities set_activities]. apply elem_of_app. right. left.
Qed.

Lemma X17_add_again_is_duplicate_witness :
  addActivity roomy sameText sameText noonJan3 "Run  "
    (Some (set_activities ["Gym"; "Read"; "Run"]%string gymRead))
  = (Alerted DuplicateName, Some (set_activities ["Gym"; "Read"; "Run"]%string gymRead)).
Proof.
  apply (X17_add_again_is_duplicate roomy sameText sameText noonJan3 noonJan3
           " Run" "Run  " gymRead).
  - vm_compute. reflexivity.
  - vm_compute. reflexivity.
Defined.


(** X19. The daily reset resets no data: it leaves in the store an object
    with the same activities, records, logged days and streaks, whose reset
    date is today when the write is taken; and then a further reset on the
    same day writes nothing. *)
Theorem X19_daily_reset_keeps_data (fits : Data -> bool) (now : Z) (d : Data) :
  exists d',
    checkDailyReset fits now (Some d) = Some d'
    /\ activities d' = activities d
    /\ dailyData d' = dailyData d
    /\ appOpens d' = appOpens d
    /\ currentStreak d' = currentStreak d
    /\ bestStreak d' = bestStreak d
    /\ (fits (set_lastResetDate (getTodayDate now) d) = true ->
        lastResetDate d' = getTodayDate now)
    /\ (lastResetDate d' = getTodayDate now ->
        forall fits' now', getTodayDate now' = getTodayDate now ->
          checkDailyReset fits' now' (Some d') = Some d').
Proof.
  assert (Hagain : forall x, lastResetDate x = getTodayDate now ->
            forall fits' now', getTodayDate now' = getTodayDate now ->
              checkDailyReset fits' now' (Some x) = Some x).
  { intros x Hx fits' now' Hday. unfold checkDailyReset. cbn [getData].
    rewrite Hday. by rewrite bool_decide_eq_false_2 by (by intros H; apply H). }
  unfold checkDailyReset. cbn [getData]. case_bool_decide as Hne.
  - unfold saveData. destruct (fits _) eqn:Hfits.
    + exists (set_lastResetDate (getTodayDate now) d).
      do 7 (split; [done|]). intros Hd'. exact (Hagain _ Hd').
    + exists d. do 7 (split; [done|]). exact (Hagain d).
  - exists d. do 6 (split; [done|]). split; [|exact (Hagain d)].
    intros _. destruct (decide (lastResetDate d = getTodayDate now)); [done|].
    by destruct Hne.
Qed.

Lemma X19_daily_reset_keeps_data_witness :
  exists d',
    checkDailyReset roomy noonJan3 (Some gymRead) = Some d'
    /\ dailyData d' = dailyData gymRead
    /\ lastResetDate d' = jan 3.
Proof.
  destruct (X19_daily_reset_keeps_data roomy noonJan3 gymRead)
    as (d' & Heq & _ & Hdd & _ & _ & _ & Hreset & _).
  exists d'. split; [exact Heq|]. split; [exact Hdd|].
  apply Hreset. reflexivity.
Defined.

(** X20. The first launch, on an empty store that takes the writes, leaves
    the default object with today as its only logged day and both streaks
    at 1. *)
Theorem X20_first_launch (tz : Z) (fits : Data -> bool) (now : Z) :
  let today := getTodayDate now in
  let first := mkData [] ∅ today light [today] 1 1 today in
  fits first = true ->
  snd (trackAppOpen tz fits now (checkDailyReset fits now None)) = Some first.
Proof.
  intros today first Hfits. subst first today.
  assert (Hreset : checkDailyReset fits now None = Some (defaults now)).
  { unfold checkDailyReset. cbn [getData initializeData].
    by rewrite bool_decide_eq_false_2 by (by intros H; apply H). }
  rewrite Hreset.
  assert (Hfresh : getTodayDate now ∉ appOpens (defaults now)) by apply not_elem_of_nil.
  rewrite (trackAppOpen_fresh tz fits now (defaults now) Hfresh). cbn [snd].
  assert (Hopened : opened tz now (defaults now)
                    = mkData [] ∅ (getTodayDate now) light [getTodayDate now] 1 1
                        (getTodayDate now)).
  { assert (Hcur : currentStreak (opened tz now (defaults now)) = 1 + 0).
    { apply currentStreak_opened.
      split; [lia|]. split; [intros i Hi; lia | apply not_elem_of_nil]. }
    pose proof (appOpens_opened tz now (defaults now)) as Hopens.
    assert (Hsort : merge_sort Z.le [getTodayDate now] = [getTodayDate now]).
    { apply sort_unique; [repeat constructor | done]. }
    pose proof (updateStreak_bounds tz now
                  (set_appOpens (appOpens (defaults now) ++ [getTodayDate now])
                     (defaults now))) as [Hb1 Hb2].
    pose proof (updateStreak_fields tz now
                  (set_appOpens (appOpens (defaults now) ++ [getTodayDate now])
                     (defaults now))) as (Ha & Hd & Hr & Ht & _).
    unfold opened in *.
    cbn [appOpens defaults initializeData fst app set_appOpens length
         currentStreak bestStreak set_lastOpenDate activities dailyData
         lastResetDate theme] in *.
    rewrite Hsort in Hopens.
    destruct (updateStreak tz now _) as [acts dd lr th ao cs bs lo].
    cbn in Hcur, Hopens, Hb1, Hb2, Ha, Hd, Hr, Ht. subst.
    unfold set_lastOpenDate. cbn. f_equal; lia. }
  rewrite Hopened. unfold saveData. by rewrite Hfits.
Qed.

Lemma X20_first_launch_witness :
  snd (trackAppOpen 330 roomy noonJan3 (checkDailyReset roomy noonJan3 None))
  = Some (mkData [] ∅ (jan 3) light [jan 3] 1 1 (jan 3)).
Proof. apply (X20_first_launch 330 roomy noonJan3). reflexivity. Defined.

(** ** The calendar of the month *)








